(** * Store service gRPC handlers (src/grpcServer.js)

    A shallow embedding of the three unary handlers of [GrpcServer]
    ([verifyStoreAccess], [getStoreInfo], [getProductByStripeCode]) and of
    [getEnvironmentFromMetadata], together with the JavaScript builtins
    they rely on, and the properties the specification states about them.

    Modelling choices.
    - JavaScript values are the inductive [JsVal].  Numbers are modelled at
      their integer values (plus [JNaN]); fractions and infinities are
      outside the model, and [String] renders integers in plain decimal,
      which is what JavaScript does below 10^21.
    - An object is the list of its own properties, in the order
      [Object.entries] walks them; reading a property takes the first
      binding of the name.  Assignment [o[k] = v] on the freshly built
      metadata objects is a map insert, except under the name [__proto__],
      where it makes no entry.
    - [call.metadata] is a grpc-js [Metadata]: a finite map from (lower
      case) keys to the list of values received for the key.
    - The handlers are [async] functions reporting through [callback].  A
      handler is modelled as a computation in the monad [M], which threads
      the trace of observable events (collaborator calls, log lines) and
      may end in a thrown value.  The value a handler computes is what it
      passes to [callback].
    - The lifecycle methods ([loadProto], [createCredentials], [start], the
      callback of [bindAsync], [stop]) run in the monad [L], which also
      threads the fields of the [GrpcServer] instance.  The file system is a
      finite map from paths to entries; the proto loader and
      [grpc.loadPackageDefinition] are functions of the host that may throw;
      [addService] is a function of the host that may throw as well;
      [new grpc.Server()], [bindAsync], [createSsl], [server.start()] and
      [tryShutdown] are recorded calls that complete.
      [new Error(msg)] is an object with the property [message]. *)

From Stdlib Require Import ZArith String Ascii List Bool Lia.
From stdpp Require Import base option gmap strings list fin_maps pretty.

#[local] Set Warnings "-register-all".

Open Scope Z_scope.
Open Scope string_scope.

(** ** JavaScript values *)

Inductive JsVal : Type :=
| JUndefined
| JNull
| JBool (b : bool)
| JNum (z : Z)
| JNaN
| JStr (s : string)
| JArr (elems : list JsVal)
| JObj (props : list (string * JsVal)).

(** [!!v]: everything is truthy except undefined, null, false, 0, NaN and
    the empty string. *)
Definition truthy (v : JsVal) : bool :=
  match v with
  | JUndefined | JNull | JNaN => false
  | JBool b => b
  | JNum z => negb (Z.eqb z 0)
  | JStr s => negb (String.eqb s "")
  | JArr _ | JObj _ => true
  end.

(** [a || b] *)
Definition js_or (a b : JsVal) : JsVal := if truthy a then a else b.

(** [typeof v === 'object'] (true of null, arrays and plain objects). *)
Definition typeof_object (v : JsVal) : bool :=
  match v with
  | JNull | JArr _ | JObj _ => true
  | _ => false
  end.

(** [v !== undefined] *)
Definition is_defined (v : JsVal) : bool :=
  match v with
  | JUndefined => false
  | _ => true
  end.

(** [v === s] for a string literal [s]. *)
Definition strict_eq_str (v : JsVal) (s : string) : bool :=
  match v with
  | JStr t => String.eqb t s
  | _ => false
  end.

Fixpoint assoc (k : string) (props : list (string * JsVal)) : option JsVal :=
  match props with
  | [] => None
  | (k', v) :: rest => if String.eqb k' k then Some v else assoc k rest
  end.

(** [o.k] for a value that is neither null nor undefined, and for the
    property names the handlers read (none of which is a builtin property
    of strings, numbers, booleans or arrays). *)
Definition get_prop (o : JsVal) (k : string) : JsVal :=
  match o with
  | JObj props => default JUndefined (assoc k props)
  | _ => JUndefined
  end.

Fixpoint join (sep : string) (l : list string) : string :=
  match l with
  | [] => ""
  | [s] => s
  | s :: rest => s ++ sep ++ join sep rest
  end.

(** [String(v)], which is also what a template literal applies. *)
Fixpoint to_string (v : JsVal) : string :=
  match v with
  | JUndefined => "undefined"
  | JNull => "null"
  | JBool true => "true"
  | JBool false => "false"
  | JNum z => pretty z
  | JNaN => "NaN"
  | JStr s => s
  | JArr elems =>
      join ","
        (List.map (fun e => match e with
                            | JUndefined | JNull => ""
                            | _ => to_string e
                            end) elems)
  | JObj _ => "[object Object]"
  end.

(** *** JSON.stringify *)

Definition hex_digit (n : N) : ascii :=
  match n with
  | 10 => "a" | 11 => "b" | 12 => "c" | 13 => "d" | 14 => "e" | 15 => "f"
  | _ => ascii_of_N (48 + n)
  end%N%char.

Definition dquote : ascii := ascii_of_N 34.
Definition backslash : ascii := ascii_of_N 92.

Definition json_escape_char (c : ascii) : string :=
  let n := N_of_ascii c in
  if (n =? 34)%N then String backslash (String dquote "") else
  if (n =? 92)%N then String backslash (String backslash "") else
  if (n =? 8)%N then String backslash "b" else
  if (n =? 12)%N then String backslash "f" else
  if (n =? 10)%N then String backslash "n" else
  if (n =? 13)%N then String backslash "r" else
  if (n =? 9)%N then String backslash "t" else
  if (n <? 32)%N
  then String backslash "u00" ++ String (hex_digit (n / 16)) (String (hex_digit (n mod 16)) "")
  else String c "".

Fixpoint json_escape (s : string) : string :=
  match s with
  | EmptyString => ""
  | String c rest => json_escape_char c ++ json_escape rest
  end.

Definition json_quote (s : string) : string :=
  String dquote (json_escape s) ++ String dquote "".

(** [JSON.stringify(v)] as text.  An [undefined] array element is written
    [null] and an object property whose value is [undefined] is left out;
    NaN is written [null].  The handlers only serialise values for which
    [typeof_object] holds, so the top-level [undefined] case is never
    reached from them. *)
Fixpoint JSON_stringify (v : JsVal) : string :=
  match v with
  | JUndefined | JNull | JNaN => "null"
  | JBool true => "true"
  | JBool false => "false"
  | JNum z => pretty z
  | JStr s => json_quote s
  | JArr elems => "[" ++ join "," (List.map JSON_stringify elems) ++ "]"
  | JObj props =>
      "{" ++ join ","
        (List.flat_map
           (fun '(k, w) => match w with
                           | JUndefined => []
                           | _ => [json_quote k ++ ":" ++ JSON_stringify w]
                           end) props) ++ "}"
  end.

(** [Object.entries(v)] for an object-shaped value: the own properties of
    an object, the indexed elements of an array. *)
Fixpoint index_from (i : nat) (l : list JsVal) : list (string * JsVal) :=
  match l with
  | [] => []
  | e :: rest => (pretty i, e) :: index_from (S i) rest
  end.

Definition Object_entries (v : JsVal) : list (string * JsVal) :=
  match v with
  | JObj props => props
  | JArr elems => index_from 0 elems
  | _ => []
  end.

(** ** Effects: collaborators, clock, logger *)

(** What awaiting a collaborator call yields: a value, or a thrown one
    (a rejected promise). *)
Inductive Completion : Type :=
| Return (v : JsVal)
| Throw (e : JsVal).

(** Everything outside the handlers that they read: the two services,
    the wall clock (milliseconds) and the platform's date parser
    ([None] is NaN). *)
Record World : Type := {
  getShopById : string -> JsVal -> Completion;
  getProductById2 : string -> JsVal -> JsVal -> Completion;
  Date_now : Z;
  Date_parse : string -> option Z
}.

Inductive Event : Type :=
| ShopLookup (env : string) (store_id : JsVal)
| ProductLookup (env : string) (store_id stripe_code : JsVal)
| LogInfo (msg : string)
| LogError (msg : string) (error : JsVal).

Inductive Result (A : Type) : Type :=
| Done (a : A)
| Raised (e : JsVal).
Arguments Done {A} a.
Arguments Raised {A} e.

(** A computation extends the trace of events and ends with a value or
    with a thrown value. *)
Definition M (A : Type) : Type := list Event -> Result A * list Event.

#[global] Instance M_ret : MRet M := fun A a tr => (Done a, tr).
#[global] Instance M_bind : MBind M := fun A B f m tr =>
  match m tr with
  | (Done a, tr') => f a tr'
  | (Raised e, tr') => (Raised e, tr')
  end.

Definition throw {A} (e : JsVal) : M A := fun tr => (Raised e, tr).
Definition emit (ev : Event) : M unit := fun tr => (Done tt, (tr ++ [ev])%list).

(** [try { body } catch (error) { handler }] *)
Definition try_catch {A} (body : M A) (handler : JsVal -> M A) : M A :=
  fun tr =>
    match body tr with
    | (Done a, tr') => (Done a, tr')
    | (Raised e, tr') => handler e tr'
    end.

(** [await service.f(args)]: the call is recorded, then its completion
    is returned or rethrown. *)
Definition await (ev : Event) (c : Completion) : M JsVal :=
  emit ev ;;
  match c with
  | Return v => mret v
  | Throw e => throw e
  end.

Definition logger_info (msg : string) : M unit := emit (LogInfo msg).
Definition logger_error (msg : string) (error : JsVal) : M unit :=
  emit (LogError msg error).

Definition TypeError : JsVal := JObj [("name", JStr "TypeError")].

(** [o.k] with no guarantee on [o]: reading a property of [null] or
    [undefined] throws. *)
Definition get_member (o : JsVal) (k : string) : M JsVal :=
  match o with
  | JUndefined | JNull => throw TypeError
  | _ => mret (get_prop o k)
  end.

Definition run {A} (m : M A) : Result A * list Event := m [].

(** ** Calls and replies *)

Module Request.
Record t : Type := mk {
  project_id : JsVal;
  store_id : JsVal;
  stripe_code : JsVal
}.
End Request.

(** grpc-js [Metadata]: key to received values. *)
Record Call : Type := {
  request : Request.t;
  metadata : gmap string (list string)
}.

(** [metadata.get(key)] *)
Definition Metadata_get (md : gmap string (list string)) (key : string)
  : list string :=
  default [] (md !! key).

(** The two members of [grpc.status] the handlers use. *)
Inductive status : Type := INVALID_ARGUMENT | INTERNAL.

(** What a handler hands to [callback]: [callback({code, message})] or
    [callback(null, response)]. *)
Inductive Reply (R : Type) : Type :=
| callback_error (code : status) (message : string)
| callback_ok (response : R).
Arguments callback_error {R} code message.
Arguments callback_ok {R} response.

Module StoreAccessResult.
Record t : Type := mk {
  has_access : bool;
  message : string;
  store_id : JsVal;
  project_id : JsVal
}.
End StoreAccessResult.

Module StoreInfoResult.
Record t : Type := mk {
  exists_ : bool;
  store_id : JsVal;
  name : JsVal;
  environment : string;
  project_id : JsVal;
  metadata : gmap string JsVal;
  updated_at : JsVal
}.
End StoreInfoResult.

Module ProductLookupResult.
Record t : Type := mk {
  exists_ : bool;
  stripe_code : JsVal;
  title : JsVal;
  category : JsVal;
  picture : JsVal;
  price : JsVal;
  purchase_price : JsVal;
  shop_id : JsVal;
  _id : JsVal;
  metadata : gmap string JsVal
}.
End ProductLookupResult.

(** ** Environment resolution *)

Definition getEnvironmentFromMetadata (call : Call) : string :=
  let md := metadata call in
  let envHeader := Metadata_get md "env" in
  (* [!envHeader] is never true of an array; only the length test decides *)
  let envHeader :=
    if Nat.eqb (length envHeader) 0 then Metadata_get md "x-environment"
    else envHeader in
  (* [envHeader[0]], or [null] *)
  match envHeader with
  | env :: _ =>
      if String.eqb env "prod" || String.eqb env "master" then env else "demo"
  | [] => "demo"
  end.

(** ** The handlers *)

(** [!v] *)
Definition js_not (v : JsVal) : bool := negb (truthy v).

(** The [catch] block shared (up to the log line) by the three handlers. *)
Definition on_error {R} (log : string) (error : JsVal) : M (Reply R) :=
  logger_error log error ;;
  message ← get_member error "message" ;
  mret (callback_error INTERNAL ("Internal error: " ++ to_string message)).

Definition verifyStoreAccess (w : World) (call : Call)
  : M (Reply StoreAccessResult.t) :=
  try_catch
    (let project_id := Request.project_id (request call) in
     let store_id := Request.store_id (request call) in
     if js_not project_id || js_not store_id then
       mret (callback_error INVALID_ARGUMENT
               "project_id and store_id are required")
     else
       let env := getEnvironmentFromMetadata call in
       logger_info ("Verifying store access: project_id=" ++ to_string project_id
                    ++ ", store_id=" ++ to_string store_id ++ ", env=" ++ env) ;;
       shop ← await (ShopLookup env store_id) (getShopById w env store_id) ;
       if js_not shop then
         mret (callback_ok
                 (StoreAccessResult.mk false
                    ("Store " ++ to_string store_id ++ " not found")
                    store_id project_id))
       else if strict_eq_str (get_prop shop "status") "closed" then
         mret (callback_ok
                 (StoreAccessResult.mk false
                    ("Store " ++ to_string store_id ++ " is closed")
                    store_id project_id))
       else
         mret (callback_ok
                 (StoreAccessResult.mk true "Access granted"
                    store_id project_id)))
    (on_error "Error verifying store access:").

(** [new Date(v).getTime()]; [None] is NaN. *)
Definition Date_getTime (w : World) (v : JsVal) : option Z :=
  match v with
  | JNum z => if Z.leb (Z.abs z) 8640000000000000 then Some z else None
  | JStr s => Date_parse w s
  | JBool b => Some (if b then 1 else 0)
  | JNull => Some 0
  | JUndefined | JNaN => None
  | JArr _ | JObj _ => Date_parse w (to_string v)
  end.

(** [Math.floor(t / 1000)] *)
Definition floor_seconds (t : option Z) : JsVal :=
  match t with
  | Some ms => JNum (ms / 1000)
  | None => JNaN
  end.

Definition getStoreInfo (w : World) (call : Call)
  : M (Reply StoreInfoResult.t) :=
  try_catch
    (let project_id := Request.project_id (request call) in
     let store_id := Request.store_id (request call) in
     if js_not project_id || js_not store_id then
       mret (callback_error INVALID_ARGUMENT
               "project_id and store_id are required")
     else
       let env := getEnvironmentFromMetadata call in
       logger_info ("Getting store info: project_id=" ++ to_string project_id
                    ++ ", store_id=" ++ to_string store_id ++ ", env=" ++ env) ;;
       shop ← await (ShopLookup env store_id) (getShopById w env store_id) ;
       if js_not shop then
         mret (callback_ok
                 (StoreInfoResult.mk false store_id (JStr "") env project_id
                    ∅ (JNum 0)))
       else
         let metadata : gmap string JsVal :=
           <["shopType" := js_or (get_prop shop "shopType") (JStr "store")]>
           (<["shop_admin_email" := js_or (get_prop shop "shop_admin_email") (JStr "")]>
           (<["contact_no" := js_or (get_prop shop "contact_no") (JStr "")]>
           (<["address" := js_or (get_prop shop "address") (JStr "")]>
           (<["status" := js_or (get_prop shop "status") (JStr "")]> ∅)))) in
         let updatedAt :=
           if truthy (get_prop shop "updated_at")
           then floor_seconds (Date_getTime w (get_prop shop "updated_at"))
           else floor_seconds (Some (Date_now w)) in
         mret (callback_ok
                 (StoreInfoResult.mk true
                    (js_or (get_prop shop "id") store_id)
                    (js_or (get_prop shop "name") (JStr ""))
                    env project_id metadata updatedAt)))
    (on_error "Error getting store info:").

(** [metadata[key] = text] on the plain object under construction, for a
    string [text].  The name [__proto__] is not an ordinary one: the
    assignment reaches the setter of [Object.prototype], which ignores a
    string, and no entry is made. *)
Definition assign_text (metadata : gmap string JsVal) (key text : string)
  : gmap string JsVal :=
  if String.eqb key "__proto__" then metadata
  else <[key := JStr text]> metadata.

(** One turn of the loop over [Object.entries(product.metadata)]. *)
Definition convert_entry (metadata : gmap string JsVal) (kv : string * JsVal)
  : gmap string JsVal :=
  let '(key, value) := kv in
  if typeof_object value
  then assign_text metadata key (JSON_stringify value)
  else assign_text metadata key (to_string value).

(** The [metadata] object built in the found-product branch. *)
Definition product_metadata (product : JsVal) : gmap string JsVal :=
  let metadata : gmap string JsVal := ∅ in
  let metadata :=
    if truthy (get_prop product "metadata")
       && typeof_object (get_prop product "metadata")
    then fold_left convert_entry
           (Object_entries (get_prop product "metadata")) metadata
    else metadata in
  let metadata :=
    if truthy (get_prop product "units")
    then <["units" := JStr (to_string (get_prop product "units"))]> metadata
    else metadata in
  let metadata :=
    if is_defined (get_prop product "isVending")
    then <["isVending" := JStr (to_string (get_prop product "isVending"))]> metadata
    else metadata in
  let metadata :=
    if is_defined (get_prop product "availableItems")
    then <["availableItems" :=
             JStr (to_string (get_prop product "availableItems"))]> metadata
    else metadata in
  metadata.

(** The reply of both not-found branches of [getProductByStripeCode]. *)
Definition product_not_found (stripe_code store_id : JsVal)
  : ProductLookupResult.t :=
  ProductLookupResult.mk false stripe_code (JStr "") (JStr "") (JStr "")
    (JNum 0) (JNum 0) store_id (JStr "") ∅.

Definition getProductByStripeCode (w : World) (call : Call)
  : M (Reply ProductLookupResult.t) :=
  try_catch
    (let project_id := Request.project_id (request call) in
     let store_id := Request.store_id (request call) in
     let stripe_code := Request.stripe_code (request call) in
     if js_not project_id || js_not store_id || js_not stripe_code then
       mret (callback_error INVALID_ARGUMENT
               "project_id, store_id, and stripe_code are required")
     else
       let env := getEnvironmentFromMetadata call in
       logger_info ("Getting product by stripe code: project_id="
                    ++ to_string project_id ++ ", store_id=" ++ to_string store_id
                    ++ ", stripe_code=" ++ to_string stripe_code
                    ++ ", env=" ++ env) ;;
       shop ← await (ShopLookup env store_id) (getShopById w env store_id) ;
       if js_not shop then
         mret (callback_ok (product_not_found stripe_code store_id))
       else
         product ← await (ProductLookup env store_id stripe_code)
                     (getProductById2 w env store_id stripe_code) ;
         if js_not product then
           logger_info ("Product not found: stripe_code=" ++ to_string stripe_code
                        ++ ", store_id=" ++ to_string store_id
                        ++ ", env=" ++ env) ;;
           mret (callback_ok (product_not_found stripe_code store_id))
         else
           let metadata := product_metadata product in
           mret (callback_ok
                   (ProductLookupResult.mk true
                      (js_or (get_prop product "stripeCode") stripe_code)
                      (js_or (get_prop product "title") (JStr ""))
                      (js_or (get_prop product "category") (JStr ""))
                      (js_or (get_prop product "picture") (JStr ""))
                      (js_or (get_prop product "price") (JNum 0))
                      (js_or (get_prop product "purchasePrice") (JNum 0))
                      (js_or (get_prop product "shopId") store_id)
                      (js_or (get_prop product "_id")
                         (js_or (get_prop product "id") (JStr "")))
                      metadata)))
    (on_error "Error getting product by stripe code:").

(** ** Vocabulary of the specification *)

(** A required identifier is absent ([undefined]) or the empty string. *)
Definition absent_or_empty (v : JsVal) : Prop := v = JUndefined \/ v = JStr "".

Definition is_shop_lookup (ev : Event) : bool :=
  match ev with ShopLookup _ _ => true | _ => false end.
Definition is_product_lookup (ev : Event) : bool :=
  match ev with ProductLookup _ _ _ => true | _ => false end.

(** Call counts, as a test double would record them. *)
Definition shop_lookups (tr : list Event) : nat :=
  length (List.filter is_shop_lookup tr).
Definition product_lookups (tr : list Event) : nat :=
  length (List.filter is_product_lookup tr).

(** The reply and the trace of a handler started on the empty trace. *)
Definition reply_of {A} (m : M A) : Result A := fst (run m).
Definition trace_of {A} (m : M A) : list Event := snd (run m).

(** The handler queried neither collaborator. *)
Definition no_lookup {A} (m : M A) : Prop :=
  shop_lookups (trace_of m) = 0%nat /\ product_lookups (trace_of m) = 0%nat.

(** A request carrying every identifier the RPC requires. *)
Definition valid_store_request (call : Call) : Prop :=
  truthy (Request.project_id (request call)) = true /\
  truthy (Request.store_id (request call)) = true.
Definition valid_product_request (call : Call) : Prop :=
  valid_store_request call /\
  truthy (Request.stripe_code (request call)) = true.

(** The Store Directory lookup of a call, and the Product Catalog one. *)
Definition store_lookup (w : World) (call : Call) : Completion :=
  getShopById w (getEnvironmentFromMetadata call)
    (Request.store_id (request call)).
Definition catalog_lookup (w : World) (call : Call) : Completion :=
  getProductById2 w (getEnvironmentFromMetadata call)
    (Request.store_id (request call)) (Request.stripe_code (request call)).

(** The response of [getStoreInfo] for a record that was found. *)
Definition store_info_found (w : World) (call : Call) (shop : JsVal)
  : StoreInfoResult.t :=
  StoreInfoResult.mk true
    (js_or (get_prop shop "id") (Request.store_id (request call)))
    (js_or (get_prop shop "name") (JStr ""))
    (getEnvironmentFromMetadata call)
    (Request.project_id (request call))
    (<["shopType" := js_or (get_prop shop "shopType") (JStr "store")]>
     (<["shop_admin_email" := js_or (get_prop shop "shop_admin_email") (JStr "")]>
     (<["contact_no" := js_or (get_prop shop "contact_no") (JStr "")]>
     (<["address" := js_or (get_prop shop "address") (JStr "")]>
     (<["status" := js_or (get_prop shop "status") (JStr "")]> ∅)))))
    (if truthy (get_prop shop "updated_at")
     then floor_seconds (Date_getTime w (get_prop shop "updated_at"))
     else floor_seconds (Some (Date_now w))).

(** The response of [getProductByStripeCode] for a record that was
    found. *)
Definition product_found (call : Call) (product : JsVal)
  : ProductLookupResult.t :=
  ProductLookupResult.mk true
    (js_or (get_prop product "stripeCode") (Request.stripe_code (request call)))
    (js_or (get_prop product "title") (JStr ""))
    (js_or (get_prop product "category") (JStr ""))
    (js_or (get_prop product "picture") (JStr ""))
    (js_or (get_prop product "price") (JNum 0))
    (js_or (get_prop product "purchasePrice") (JNum 0))
    (js_or (get_prop product "shopId") (Request.store_id (request call)))
    (js_or (get_prop product "_id") (js_or (get_prop product "id") (JStr "")))
    (product_metadata product).

(** The fallback of each of the five metadata fields of [getStoreInfo]. *)
Definition store_metadata_default (k : string) : JsVal :=
  if decide (k = "shopType") then JStr "store" else JStr "".

(** Normalisation of a selected metadata value. *)
Definition normalize_env (v : string) : string :=
  if decide (v = "prod" \/ v = "master") then v else "demo".

(** The resolver as the specification words it: [env] first and, when
    [env] is absent or its value is the empty string, [x-environment]. *)
Definition spec_getEnvironment (call : Call) : string :=
  let md := metadata call in
  let selected :=
    match head (Metadata_get md "env") with
    | Some v => if decide (v = "") then head (Metadata_get md "x-environment")
                else Some v
    | None => head (Metadata_get md "x-environment")
    end in
  match selected with
  | Some v => normalize_env v
  | None => "demo"
  end.

(** How one free-form value is rendered: JSON text for a structured
    value, [String] for a scalar. *)
Definition convert_value (v : JsVal) : JsVal :=
  JStr (if typeof_object v then JSON_stringify v else to_string v).

(** The binding of [k] that a left-to-right run of assignments leaves. *)
Definition last_assoc (k : string) (l : list (string * JsVal)) : option JsVal :=
  assoc k (rev l).

(** What the free-form metadata of a record contributes at key [k]. *)
Definition free_form (product : JsVal) (k : string) : option JsVal :=
  let md := get_prop product "metadata" in
  if truthy md && typeof_object md
  then convert_value <$> last_assoc k (Object_entries md)
  else None.

(** The keys the free-form metadata of a record brings. *)
Definition free_form_keys (product : JsVal) : list string :=
  let md := get_prop product "metadata" in
  if truthy md && typeof_object md then List.map fst (Object_entries md)
  else [].


(** What the three fixed fields of a record contribute at key [k]:
    [units] when truthy, [isVending] and [availableItems] when not
    [undefined], each stringified. *)
Definition fixed_field (product : JsVal) (k : string) : option JsVal :=
  if decide (k = "units") then
    if truthy (get_prop product "units")
    then Some (JStr (to_string (get_prop product "units"))) else None
  else if decide (k = "isVending") then
    if is_defined (get_prop product "isVending")
    then Some (JStr (to_string (get_prop product "isVending"))) else None
  else if decide (k = "availableItems") then
    if is_defined (get_prop product "availableItems")
    then Some (JStr (to_string (get_prop product "availableItems"))) else None
  else None.



(** Two worlds whose collaborators (and date parser) answer alike; their
    clocks may differ. *)
Definition same_collaborators (w1 w2 : World) : Prop :=
  getShopById w1 = getShopById w2 /\
  getProductById2 w1 = getProductById2 w2 /\
  Date_parse w1 = Date_parse w2.

(** ** Sample worlds and calls *)

Definition no_date_parser (_ : string) : option Z := None.

Definition world_of (shop product : Completion) (now : Z) : World :=
  {| getShopById := fun _ _ => shop;
     getProductById2 := fun _ _ _ => product;
     Date_now := now;
     Date_parse := no_date_parser |}.

Definition call_of (project_id store_id stripe_code : JsVal)
    (md : gmap string (list string)) : Call :=
  {| request := Request.mk project_id store_id stripe_code; metadata := md |}.

Definition call_no_store : Call :=
  call_of (JStr "proj-1") JUndefined (JStr "sku-42") ∅.
Definition call_empty_code : Call :=
  call_of (JStr "proj-1") (JStr "store-7") (JStr "") ∅.

Definition sample_call : Call :=
  call_of (JStr "proj-1") (JStr "store-7") (JStr "sku-42") {[ "env" := ["prod"] ]}.

(** [env] carries the empty string while [x-environment] says prod. *)
Definition call_empty_env : Call :=
  call_of (JStr "proj-1") (JStr "store-7") (JStr "sku-42")
    {[ "env" := [""]; "x-environment" := ["prod"] ]}.

Definition open_shop : JsVal :=
  JObj [("id", JStr "store-7"); ("name", JStr "Kiosk"); ("status", JStr "open")].
Definition closed_shop : JsVal :=
  JObj [("id", JStr "store-7"); ("status", JStr "closed")].

Definition boom : JsVal := JObj [("message", JStr "table offline")].

(** The record of the specification's example:
    [{metadata: {a: 1, b: {x: 2}}, units: 3}]. *)
Definition example_product : JsVal :=
  JObj [("metadata", JObj [("a", JNum 1); ("b", JObj [("x", JNum 2)])]);
        ("units", JNum 3)].

Definition zero_units_product : JsVal :=
  JObj [("title", JStr "Water"); ("units", JNum 0)].

(** ** Server lifecycle: configuration, files, the grpc library *)

(** [config.grpc] *)
Record GrpcConfig : Type := {
  port : JsVal;
  serverCertPath : string;
  serverKeyPath : string;
  caCertPath : string;
  requireClientCert : bool
}.

(** What a path of the file system holds: a file with its bytes, or
    something that exists but cannot be read (a directory, a file without
    permission), with the error [fs.readFileSync] throws on it. *)
Inductive FsEntry : Type :=
| File (content : string)
| Unreadable (error : JsVal).

(** What start-up reads from outside the class: the file system, the
    configuration, the path [path.join(__dirname, '../proto/store.proto')]
    resolves to, the two library functions that turn the proto file into a
    service descriptor, and what [server.addService] does with a service
    definition and the names of the handlers given for it (it throws on a
    definition that is missing, not an object or empty). *)
Record Host : Type := {
  fs : gmap string FsEntry;
  config_grpc : GrpcConfig;
  protoPath : string;
  protoLoader_loadSync : string -> Completion;
  grpc_loadPackageDefinition : JsVal -> Completion;
  server_addService : JsVal -> list string -> Completion
}.

Record KeyCertPair : Type := {
  cert_chain : string;
  private_key : string
}.

(** The value of [grpc.ServerCredentials.createSsl(rootCerts, keyCertPairs,
    checkClientCertificate)]. *)
Record ServerCredentials : Type := createSsl {
  rootCerts : string;
  keyCertPairs : list KeyCertPair;
  checkClientCertificate : bool
}.

(** The object [new grpc.Server()] gives. *)
Inductive ServerHandle : Type := grpc_Server.

(** The fields of a [GrpcServer] instance. *)
Record GrpcServer : Type := {
  server : option ServerHandle;
  packageDefinition : JsVal;
  protoDescriptor : JsVal
}.

(** [constructor()] *)
Definition GrpcServer_new : GrpcServer :=
  {| server := None; packageDefinition := JNull; protoDescriptor := JNull |}.

(** What start-up and shutdown do to the outside, in order. *)
Inductive SysEvent : Type :=
| fs_existsSync (path : string)
| fs_readFileSync (path : string)
| loadSync (path : string)
| loadPackageDefinition (definition : JsVal)
| new_Server
| addService (service : JsVal) (rpcs : list string)
| bindAsync (address : string) (credentials : ServerCredentials)
| server_start
| tryShutdown
| log_info (msg : string)
| log_error (msg : string) (error : JsVal).

(** A method of the class: it may update the fields of [this], extends the
    trace, and ends with a value or a thrown one. *)
Definition L (A : Type) : Type :=
  GrpcServer * list SysEvent -> Result A * (GrpcServer * list SysEvent).

#[global] Instance L_ret : MRet L := fun A a st => (Done a, st).
#[global] Instance L_bind : MBind L := fun A B f m st =>
  match m st with
  | (Done a, st') => f a st'
  | (Raised e, st') => (Raised e, st')
  end.

Definition sys_throw {A} (e : JsVal) : L A := fun st => (Raised e, st).
Definition sys_emit (ev : SysEvent) : L unit :=
  fun st => (Done tt, (fst st, (snd st ++ [ev])%list)).
Definition get_this : L GrpcServer := fun st => (Done (fst st), st).
Definition set_this (this : GrpcServer) : L unit :=
  fun st => (Done tt, (this, snd st)).

Definition sys_try_catch {A} (body : L A) (handler : JsVal -> L A) : L A :=
  fun st =>
    match body st with
    | (Done a, st') => (Done a, st')
    | (Raised e, st') => handler e st'
    end.

(** A call into a library: recorded, then its completion returned or
    rethrown. *)
Definition sys_call (ev : SysEvent) (c : Completion) : L JsVal :=
  sys_emit ev ;;
  match c with
  | Return v => mret v
  | Throw e => sys_throw e
  end.

(** [new Error(msg)] *)
Definition JsError (msg : string) : JsVal := JObj [("message", JStr msg)].

(** [fs.existsSync(path)] *)
Definition existsSync (h : Host) (path : string) : L bool :=
  sys_emit (fs_existsSync path) ;;
  mret (match fs h !! path with Some _ => true | None => false end).

(** [fs.readFileSync(path)] *)
Definition readFileSync (h : Host) (path : string) : L string :=
  sys_emit (fs_readFileSync path) ;;
  match fs h !! path with
  | Some (File content) => mret content
  | Some (Unreadable e) => sys_throw e
  | None =>
      sys_throw (JsError ("ENOENT: no such file or directory, open " ++ path))
  end.

Definition loadProto (h : Host) : L unit :=
  let protoPath := protoPath h in
  found ← existsSync h protoPath ;
  if negb found then
    sys_throw (JsError ("Proto file not found: " ++ protoPath))
  else
    definition ← sys_call (loadSync protoPath) (protoLoader_loadSync h protoPath) ;
    this ← get_this ;
    set_this {| server := server this;
                packageDefinition := definition;
                protoDescriptor := protoDescriptor this |} ;;
    descriptor ← sys_call (loadPackageDefinition definition)
                   (grpc_loadPackageDefinition h definition) ;
    this ← get_this ;
    set_this {| server := server this;
                packageDefinition := packageDefinition this;
                protoDescriptor := descriptor |}.

Definition createCredentials (h : Host) : L ServerCredentials :=
  let cfg := config_grpc h in
  found ← existsSync h (serverCertPath cfg) ;
  if negb found then
    sys_throw (JsError ("Server certificate not found: " ++ serverCertPath cfg))
  else
  found ← existsSync h (serverKeyPath cfg) ;
  if negb found then
    sys_throw (JsError ("Server key not found: " ++ serverKeyPath cfg))
  else
  found ← existsSync h (caCertPath cfg) ;
  if negb found then
    sys_throw (JsError ("CA certificate not found: " ++ caCertPath cfg))
  else
  serverCert ← readFileSync h (serverCertPath cfg) ;
  serverKey ← readFileSync h (serverKeyPath cfg) ;
  caCert ← readFileSync h (caCertPath cfg) ;
  let certChain := serverCert in
  let privateKey := serverKey in
  let rootCerts := caCert in
  mret (createSsl rootCerts
          [{| cert_chain := certChain; private_key := privateKey |}]
          (requireClientCert cfg)).

(** [o.k] inside a method: reading a property of [null] or [undefined]
    throws. *)
Definition sys_get_member (o : JsVal) (k : string) : L JsVal :=
  match o with
  | JUndefined | JNull => sys_throw TypeError
  | _ => mret (get_prop o k)
  end.

(** The names under which [start] registers the three handlers. *)
Definition registered_rpcs : list string :=
  ["VerifyStoreAccess"; "GetStoreInfo"; "GetProductByStripeCode"].

(** [start()], up to and including the call of [bindAsync]; the callback
    handed to [bindAsync] is [bindAsync_callback]. *)
Definition start (h : Host) : L unit :=
  sys_try_catch
    (loadProto h ;;
     sys_emit new_Server ;;
     this ← get_this ;
     set_this {| server := Some grpc_Server;
                 packageDefinition := packageDefinition this;
                 protoDescriptor := protoDescriptor this |} ;;
     this ← get_this ;
     storeProto ← sys_get_member (protoDescriptor this) "store" ;
     if js_not storeProto || js_not (get_prop storeProto "StoreService") then
       sys_throw (JsError "StoreService not found in proto definition")
     else
       let service := get_prop (get_prop storeProto "StoreService") "service" in
       sys_call (addService service registered_rpcs)
         (server_addService h service registered_rpcs) ;;
       credentials ← createCredentials h ;
       let port := port (config_grpc h) in
       let bindAddress := "0.0.0.0:" ++ to_string port in
       sys_emit (bindAsync bindAddress credentials))
    (fun error =>
       sys_emit (log_error "Error starting gRPC server:" error) ;;
       sys_throw error).

(** The callback [(error, port) => ...] that [start] hands to [bindAsync];
    the library calls it once the bind is settled. *)
Definition bindAsync_callback (h : Host) (error port : JsVal) : L unit :=
  if truthy error then
    sys_emit (log_error "Failed to start gRPC server:" error) ;;
    sys_throw error
  else
    this ← get_this ;
    match server this with
    | Some _ => sys_emit server_start
    | None => sys_throw TypeError
    end ;;
    sys_emit (log_info ("gRPC server started on port " ++ to_string port
                        ++ " with mTLS")) ;;
    sys_emit (log_info ("Server certificate: "
                        ++ serverCertPath (config_grpc h))) ;;
    sys_emit (log_info ("CA certificate: " ++ caCertPath (config_grpc h))) ;;
    sys_emit (log_info ("Client certificate required: "
                        ++ to_string (JBool (requireClientCert (config_grpc h))))).

(** [stop()]; the callback handed to [tryShutdown] runs when the library
    has shut the server down. *)
Definition stop : L unit :=
  this ← get_this ;
  match server this with
  | Some _ =>
      sys_emit tryShutdown ;;
      sys_emit (log_info "gRPC server stopped")
  | None => mret tt
  end.

(** A method run on an instance, from the empty trace. *)
Definition sys_run {A} (m : L A) (this : GrpcServer)
  : Result A * (GrpcServer * list SysEvent) :=
  m (this, []).
Definition outcome_of {A} (m : L A) (this : GrpcServer) : Result A :=
  fst (sys_run m this).
Definition this_after {A} (m : L A) (this : GrpcServer) : GrpcServer :=
  fst (snd (sys_run m this)).
Definition events_of {A} (m : L A) (this : GrpcServer) : list SysEvent :=
  snd (snd (sys_run m this)).

(** ** Vocabulary for the further properties *)

Definition is_error_log (ev : Event) : bool :=
  match ev with LogError _ _ => true | _ => false end.

(** Lines written at error severity. *)
Definition error_logs (tr : list Event) : nat :=
  length (List.filter is_error_log tr).

(** [null] or [undefined]: the values whose properties cannot be read. *)
Definition is_nullish (v : JsVal) : bool :=
  match v with
  | JUndefined | JNull => true
  | _ => false
  end.

(** A Store Directory that knows the sample store under prod only and
    fails for every other environment or store. *)
Definition prod_only_world : World :=
  {| getShopById := fun env store_id =>
       match store_id with
       | JStr id =>
           if String.eqb env "prod" && String.eqb id "store-7"
           then Return open_shop else Throw boom
       | _ => Throw boom
       end;
     getProductById2 := fun env _ stripe_code =>
       match stripe_code with
       | JStr code =>
           if String.eqb env "prod" && String.eqb code "sku-42"
           then Return example_product else Throw boom
       | _ => Throw boom
       end;
     Date_now := 0;
     Date_parse := no_date_parser |}.

(** A record whose free-form metadata has an own key [__proto__]. *)
Definition proto_key_product : JsVal :=
  JObj [("metadata", JObj [("__proto__", JNum 1); ("a", JNum 2)])].

(** The same call with another [project_id]. *)
Definition with_project_id (p : JsVal) (call : Call) : Call :=
  {| request := Request.mk p (Request.store_id (request call))
                  (Request.stripe_code (request call));
     metadata := metadata call |}.

(** A reply of [verifyStoreAccess] with the echoed [project_id]
    replaced. *)
Definition echo_project (p : JsVal) (r : Result (Reply StoreAccessResult.t))
  : Result (Reply StoreAccessResult.t) :=
  match r with
  | Done (callback_ok resp) =>
      Done (callback_ok
              (StoreAccessResult.mk (StoreAccessResult.has_access resp)
                 (StoreAccessResult.message resp)
                 (StoreAccessResult.store_id resp) p))
  | other => other
  end.

(** The reply is an error of the given code. *)
Definition is_error_reply {R} (code : status) (r : Result (Reply R)) : bool :=
  match r with
  | Done (callback_error c _) =>
      match c, code with
      | INVALID_ARGUMENT, INVALID_ARGUMENT | INTERNAL, INTERNAL => true
      | _, _ => false
      end
  | _ => false
  end.

(** The handler ended by throwing: [callback] was never called. *)
Definition is_unanswered {R} (r : Result (Reply R)) : bool :=
  match r with
  | Raised _ => true
  | Done _ => false
  end.

(** Sample start-up data: the certificate paths of the set-up document. *)
Definition sample_config : GrpcConfig :=
  {| port := JNum 50051;
     serverCertPath := "certs/grpc/server.crt";
     serverKeyPath := "certs/grpc/server.key";
     caCertPath := "certs/grpc/ca.crt";
     requireClientCert := true |}.

Definition sample_service : JsVal := JObj [("VerifyStoreAccess", JObj [])].

Definition sample_descriptor : JsVal :=
  JObj [("store", JObj [("StoreService", JObj [("service", sample_service)])])].

Definition sample_definition : JsVal := JObj [("store.StoreService", JObj [])].

(** A stand-in for the library's [addService] on the sample hosts: it
    refuses a service definition that is not an object or has no method,
    with the library's messages. *)
Definition grpc_js_addService (service : JsVal) (rpcs : list string)
  : Completion :=
  match service with
  | JObj [] => Throw (JsError "Cannot add an empty service to a server")
  | JObj _ => Return JUndefined
  | _ => Throw (JsError "addService() requires two objects as arguments")
  end.

Definition host_of (files : gmap string FsEntry) : Host :=
  {| fs := files;
     config_grpc := sample_config;
     protoPath := "/app/src/proto/store.proto";
     protoLoader_loadSync := fun _ => Return sample_definition;
     grpc_loadPackageDefinition := fun _ => Return sample_descriptor;
     server_addService := grpc_js_addService |}.

Definition sample_files : gmap string FsEntry :=
  {[ "/app/src/proto/store.proto" := File "service StoreService";
     "certs/grpc/server.crt" := File "SERVER CERT";
     "certs/grpc/server.key" := File "SERVER KEY";
     "certs/grpc/ca.crt" := File "CA CERT" ]}.

(** ** Vocabulary for the lifecycle properties *)

Definition is_file_read (ev : SysEvent) : bool :=
  match ev with fs_readFileSync _ => true | _ => false end.
(** Files read so far. *)
Definition file_reads (tr : list SysEvent) : nat :=
  length (List.filter is_file_read tr).

Definition is_bind (ev : SysEvent) : bool :=
  match ev with bindAsync _ _ => true | _ => false end.
(** Calls of [bindAsync] so far. *)
Definition binds (tr : list SysEvent) : nat :=
  length (List.filter is_bind tr).

Definition is_new_server (ev : SysEvent) : bool :=
  match ev with new_Server => true | _ => false end.
(** Servers created so far. *)
Definition servers_created (tr : list SysEvent) : nat :=
  length (List.filter is_new_server tr).

(** The proto file is there and the two library calls turn it into a
    descriptor that has [store.StoreService]. *)
Definition proto_loads (h : Host) (definition descriptor : JsVal) : Prop :=
  is_Some (fs h !! protoPath h) /\
  protoLoader_loadSync h (protoPath h) = Return definition /\
  grpc_loadPackageDefinition h definition = Return descriptor /\
  truthy (get_prop descriptor "store") = true /\
  truthy (get_prop (get_prop descriptor "store") "StoreService") = true.

(** The service definition [start] hands to [addService]:
    [protoDescriptor.store.StoreService.service]. *)
Definition service_of (descriptor : JsVal) : JsVal :=
  get_prop (get_prop (get_prop descriptor "store") "StoreService") "service".

(** A host whose descriptor has [store.StoreService] but no service
    definition under it. *)
Definition host_with_bare_service : Host :=
  {| fs := sample_files;
     config_grpc := sample_config;
     protoPath := "/app/src/proto/store.proto";
     protoLoader_loadSync := fun _ => Return sample_definition;
     grpc_loadPackageDefinition := fun _ =>
       Return (JObj [("store", JObj [("StoreService", JObj [])])]);
     server_addService := grpc_js_addService |}.

(** The address [start] binds: every interface, the configured port. *)
Definition the_bind_address (h : Host) : string :=
  "0.0.0.0:" ++ to_string (port (config_grpc h)).

(** A host whose proto file declares no [store] package. *)
Definition host_without_service : Host :=
  {| fs := sample_files;
     config_grpc := sample_config;
     protoPath := "/app/src/proto/store.proto";
     protoLoader_loadSync := fun _ => Return sample_definition;
     grpc_loadPackageDefinition := fun _ => Return (JObj []);
     server_addService := grpc_js_addService |}.

Definition sample_credentials : ServerCredentials :=
  createSsl "CA CERT"
    [{| cert_chain := "SERVER CERT"; private_key := "SERVER KEY" |}] true.

Definition disk_error : JsVal :=
  JObj [("code", JStr "EISDIR");
        ("message", JStr "EISDIR: illegal operation on a directory, read")].

(** ** Builtins on samples *)

Example to_string_samples :
  to_string (JNum 3) = "3" /\ to_string (JNum (-12)) = "-12" /\
  to_string (JBool false) = "false" /\ to_string JNull = "null" /\
  to_string (JArr [JNum 1; JNull; JStr "a"]) = "1,,a" /\
  to_string (JObj [("x", JNum 2)]) = "[object Object]".
Proof. repeat split; reflexivity. Qed.

Example JSON_stringify_samples :
  JSON_stringify (JObj [("x", JNum 2)]) = "{" ++ json_quote "x" ++ ":2}" /\
  JSON_stringify (JArr [JNum 1; JUndefined; JStr "a"])
    = "[1,null," ++ json_quote "a" ++ "]" /\
  JSON_stringify (JObj [("u", JUndefined); ("n", JNull)])
    = "{" ++ json_quote "n" ++ ":null}" /\
  JSON_stringify JNull = "null".
Proof. repeat split; reflexivity. Qed.

(** ** The handlers on samples *)

Example verifyStoreAccess_closed_sample :
  run (verifyStoreAccess (world_of (Return closed_shop) (Return JNull) 0)
         sample_call) =
    (Done (callback_ok
       (StoreAccessResult.mk false "Store store-7 is closed"
          (JStr "store-7") (JStr "proj-1"))),
     [LogInfo
        "Verifying store access: project_id=proj-1, store_id=store-7, env=prod";
      ShopLookup "prod" (JStr "store-7")]).
Proof. reflexivity. Qed.

Example getProductByStripeCode_hit_sample :
  trace_of (getProductByStripeCode
              (world_of (Return open_shop) (Return example_product) 0)
              sample_call) =
    [LogInfo ("Getting product by stripe code: project_id=proj-1, "
              ++ "store_id=store-7, stripe_code=sku-42, env=prod");
     ShopLookup "prod" (JStr "store-7");
     ProductLookup "prod" (JStr "store-7") (JStr "sku-42")].
Proof. reflexivity. Qed.

Example getStoreInfo_failure_sample :
  run (getStoreInfo (world_of (Throw boom) (Return JNull) 0) sample_call) =
    (Done (callback_error INTERNAL "Internal error: table offline"),
     [LogInfo "Getting store info: project_id=proj-1, store_id=store-7, env=prod";
      ShopLookup "prod" (JStr "store-7");
      LogError "Error getting store info:" boom]).
Proof. reflexivity. Qed.

(** A thrown [null] has no [message] to read: the [catch] block itself
    throws and the handler ends without answering. *)
Example thrown_null_sample :
  reply_of (getStoreInfo (world_of (Throw JNull) (Return JNull) 0) sample_call)
    = Raised TypeError.
Proof. reflexivity. Qed.

(** An own key [__proto__] of the free-form metadata makes no entry. *)
Example proto_key_sample :
  product_metadata proto_key_product = {[ "a" := JStr "2" ]}.
Proof. vm_compute. reflexivity. Qed.

(** ** Running the handlers *)

Lemma absent_or_empty_not_truthy (v : JsVal) :
  absent_or_empty v -> js_not v = true.
Proof. by intros [-> | ->]. Qed.

Lemma truthy_js_not (v : JsVal) : truthy v = true -> js_not v = false.
Proof. unfold js_not. by intros ->. Qed.

Lemma falsy_js_not (v : JsVal) : truthy v = false -> js_not v = true.
Proof. unfold js_not. by intros ->. Qed.

Lemma truthy_get_member (o : JsVal) (k : string) :
  truthy o = true -> get_member o k = mret (get_prop o k).
Proof. by destruct o. Qed.

(** The [catch] block on a thrown value that is an object or a primitive
    other than [null] and [undefined]. *)
Lemma on_error_run {R} (log : string) (e : JsVal) (tr : list Event) :
  e <> JUndefined -> e <> JNull ->
  @on_error R log e tr =
    (Done (callback_error INTERNAL
             ("Internal error: " ++ to_string (get_prop e "message"))),
     (tr ++ [LogError log e])%list).
Proof. intros Hu Hn. by destruct e. Qed.

Ltac unfold_handler :=
  unfold reply_of, trace_of, run, verifyStoreAccess, getStoreInfo,
    getProductByStripeCode, try_catch, await, logger_info, emit,
    store_lookup, catalog_lookup, valid_product_request,
    valid_store_request in *;
  unfold mbind, M_bind, mret, M_ret in *.

Section Runs.
Variables (w : World) (call : Call).

#[local] Abbreviation project_id := (Request.project_id (request call)).
#[local] Abbreviation store_id := (Request.store_id (request call)).
#[local] Abbreviation stripe_code := (Request.stripe_code (request call)).
#[local] Abbreviation env := (getEnvironmentFromMetadata call).

Lemma verifyStoreAccess_invalid :
  js_not project_id || js_not store_id = true ->
  run (verifyStoreAccess w call) =
    (Done (callback_error INVALID_ARGUMENT
             "project_id and store_id are required"), []).
Proof. intros H. unfold_handler. by rewrite H. Qed.

Lemma getStoreInfo_invalid :
  js_not project_id || js_not store_id = true ->
  run (getStoreInfo w call) =
    (Done (callback_error INVALID_ARGUMENT
             "project_id and store_id are required"), []).
Proof. intros H. unfold_handler. by rewrite H. Qed.

Lemma getProductByStripeCode_invalid :
  js_not project_id || js_not store_id || js_not stripe_code = true ->
  run (getProductByStripeCode w call) =
    (Done (callback_error INVALID_ARGUMENT
             "project_id, store_id, and stripe_code are required"), []).
Proof.
  intros H. unfold_handler. by rewrite H.
Qed.

Lemma verifyStoreAccess_returns (shop : JsVal) :
  valid_store_request call -> store_lookup w call = Return shop ->
  exists msg,
    run (verifyStoreAccess w call) =
      (Done (callback_ok
         (if js_not shop then
            StoreAccessResult.mk false
              ("Store " ++ to_string store_id ++ " not found")
              store_id project_id
          else if strict_eq_str (get_prop shop "status") "closed" then
            StoreAccessResult.mk false
              ("Store " ++ to_string store_id ++ " is closed")
              store_id project_id
          else StoreAccessResult.mk true "Access granted" store_id project_id)),
       [LogInfo msg; ShopLookup env store_id]).
Proof.
  intros [Hp Hs] Hshop. eexists. unfold_handler.
  rewrite (truthy_js_not _ Hp), (truthy_js_not _ Hs), Hshop. simpl.
  destruct (js_not shop); [reflexivity|].
  destruct (strict_eq_str _ _); reflexivity.
Qed.

Lemma verifyStoreAccess_throws (e : JsVal) :
  valid_store_request call -> store_lookup w call = Throw e ->
  exists msg,
    run (verifyStoreAccess w call) =
      on_error "Error verifying store access:" e
        [LogInfo msg; ShopLookup env store_id].
Proof.
  intros [Hp Hs] Hshop. eexists. unfold_handler.
  rewrite (truthy_js_not _ Hp), (truthy_js_not _ Hs), Hshop. reflexivity.
Qed.

Lemma getStoreInfo_returns (shop : JsVal) :
  valid_store_request call -> store_lookup w call = Return shop ->
  exists msg,
    run (getStoreInfo w call) =
      (Done (callback_ok
         (if js_not shop then
            StoreInfoResult.mk false store_id (JStr "") env project_id
              ∅ (JNum 0)
          else store_info_found w call shop)),
       [LogInfo msg; ShopLookup env store_id]).
Proof.
  intros [Hp Hs] Hshop. eexists. unfold_handler.
  rewrite (truthy_js_not _ Hp), (truthy_js_not _ Hs), Hshop. simpl.
  destruct (js_not shop); reflexivity.
Qed.

Lemma getStoreInfo_throws (e : JsVal) :
  valid_store_request call -> store_lookup w call = Throw e ->
  exists msg,
    run (getStoreInfo w call) =
      on_error "Error getting store info:" e
        [LogInfo msg; ShopLookup env store_id].
Proof.
  intros [Hp Hs] Hshop. eexists. unfold_handler.
  rewrite (truthy_js_not _ Hp), (truthy_js_not _ Hs), Hshop. reflexivity.
Qed.

Lemma getProductByStripeCode_no_store (shop : JsVal) :
  valid_product_request call -> store_lookup w call = Return shop ->
  truthy shop = false ->
  exists msg,
    run (getProductByStripeCode w call) =
      (Done (callback_ok (product_not_found stripe_code store_id)),
       [LogInfo msg; ShopLookup env store_id]).
Proof.
  intros [[Hp Hs] Hc] Hshop Hfalsy. eexists. unfold_handler.
  rewrite (truthy_js_not _ Hp), (truthy_js_not _ Hs), (truthy_js_not _ Hc).
  rewrite Hshop. simpl. rewrite (falsy_js_not _ Hfalsy). reflexivity.
Qed.

Lemma getProductByStripeCode_store_throws (e : JsVal) :
  valid_product_request call -> store_lookup w call = Throw e ->
  exists msg,
    run (getProductByStripeCode w call) =
      on_error "Error getting product by stripe code:" e
        [LogInfo msg; ShopLookup env store_id].
Proof.
  intros [[Hp Hs] Hc] Hshop. eexists. unfold_handler.
  rewrite (truthy_js_not _ Hp), (truthy_js_not _ Hs), (truthy_js_not _ Hc).
  rewrite Hshop. reflexivity.
Qed.

Lemma getProductByStripeCode_returns (shop product : JsVal) :
  valid_product_request call -> store_lookup w call = Return shop ->
  truthy shop = true -> catalog_lookup w call = Return product ->
  exists msg tail,
    run (getProductByStripeCode w call) =
      (Done (callback_ok
         (if js_not product then product_not_found stripe_code store_id
          else product_found call product)),
       ([LogInfo msg; ShopLookup env store_id;
         ProductLookup env store_id stripe_code] ++ tail)%list)
    /\ product_lookups tail = 0%nat /\ shop_lookups tail = 0%nat.
Proof.
  intros [[Hp Hs] Hc] Hshop Htruthy Hprod. unfold_handler.
  rewrite (truthy_js_not _ Hp), (truthy_js_not _ Hs), (truthy_js_not _ Hc).
  rewrite Hshop. simpl. rewrite (truthy_js_not _ Htruthy), Hprod. simpl.
  destruct (js_not product); do 2 eexists; (split; [reflexivity|done]).
Qed.

Lemma getProductByStripeCode_catalog_throws (shop e : JsVal) :
  valid_product_request call -> store_lookup w call = Return shop ->
  truthy shop = true -> catalog_lookup w call = Throw e ->
  exists msg,
    run (getProductByStripeCode w call) =
      on_error "Error getting product by stripe code:" e
        [LogInfo msg; ShopLookup env store_id;
         ProductLookup env store_id stripe_code].
Proof.
  intros [[Hp Hs] Hc] Hshop Htruthy Hprod. eexists. unfold_handler.
  rewrite (truthy_js_not _ Hp), (truthy_js_not _ Hs), (truthy_js_not _ Hc).
  rewrite Hshop. simpl. rewrite (truthy_js_not _ Htruthy), Hprod.
  reflexivity.
Qed.
End Runs.

(** ** Validation *)

(** C1. When a required identifier ([project_id], [store_id], and for
    [getProductByStripeCode] also [stripe_code]) is absent or the empty
    string, each handler answers [callback] with an INVALID_ARGUMENT error
    (the two store handlers with the message "project_id and store_id are
    required") and queries neither the Store Directory nor the Product
    Catalog. *)
Theorem missing_identifier_is_invalid_argument (w : World) (call : Call) :
  let r := request call in
  (absent_or_empty (Request.project_id r) \/
   absent_or_empty (Request.store_id r) ->
     (reply_of (verifyStoreAccess w call) =
        Done (callback_error INVALID_ARGUMENT
                "project_id and store_id are required") /\
      no_lookup (verifyStoreAccess w call)) /\
     (reply_of (getStoreInfo w call) =
        Done (callback_error INVALID_ARGUMENT
                "project_id and store_id are required") /\
      no_lookup (getStoreInfo w call))) /\
  (absent_or_empty (Request.project_id r) \/
   absent_or_empty (Request.store_id r) \/
   absent_or_empty (Request.stripe_code r) ->
     reply_of (getProductByStripeCode w call) =
       Done (callback_error INVALID_ARGUMENT
               "project_id, store_id, and stripe_code are required") /\
     no_lookup (getProductByStripeCode w call)).
Proof.
  intros r. split.
  - intros H.
    assert (js_not (Request.project_id r) || js_not (Request.store_id r) = true)
      as Hbad.
    { destruct H as [H | H]; rewrite (absent_or_empty_not_truthy _ H);
        [reflexivity | apply orb_true_r]. }
    unfold no_lookup, reply_of, trace_of.
    rewrite (verifyStoreAccess_invalid w call Hbad).
    rewrite (getStoreInfo_invalid w call Hbad). done.
  - intros H.
    assert (js_not (Request.project_id r) || js_not (Request.store_id r)
            || js_not (Request.stripe_code r) = true) as Hbad.
    { destruct H as [H | [H | H]]; rewrite (absent_or_empty_not_truthy _ H);
        rewrite ?orb_true_r; reflexivity. }
    unfold no_lookup, reply_of, trace_of.
    rewrite (getProductByStripeCode_invalid w call Hbad). done.
Qed.

Lemma missing_identifier_witness :
  reply_of (verifyStoreAccess (world_of (Return open_shop) (Return JNull) 0)
              call_no_store) =
    Done (callback_error INVALID_ARGUMENT "project_id and store_id are required")
  /\
  reply_of (getProductByStripeCode
              (world_of (Return open_shop) (Return JNull) 0) call_empty_code) =
    Done (callback_error INVALID_ARGUMENT
            "project_id, store_id, and stripe_code are required").
Proof.
  split.
  - apply (missing_identifier_is_invalid_argument
             (world_of (Return open_shop) (Return JNull) 0) call_no_store).
    right. left. reflexivity.
  - apply (missing_identifier_is_invalid_argument
             (world_of (Return open_shop) (Return JNull) 0) call_empty_code).
    right. right. right. reflexivity.
Defined.

(** ** VerifyStoreAccess *)

Lemma strict_eq_str_true (v : JsVal) (s : string) :
  strict_eq_str v s = true <-> v = JStr s.
Proof.
  destruct v; simpl; try (split; [discriminate | intros [=]]).
  rewrite String.eqb_eq. split; [by intros -> | by intros [= ->]].
Qed.

Lemma strict_eq_str_false (v : JsVal) (s : string) :
  v <> JStr s -> strict_eq_str v s = false.
Proof.
  intros Hne. destruct (strict_eq_str v s) eqn:E; [|done].
  by apply strict_eq_str_true in E.
Qed.

(** C5. On a valid request whose lookup returns, [verifyStoreAccess]
    answers with a response, never an error: no record gives
    [has_access=false] and "Store <id> not found"; a record whose status is
    "closed" gives [has_access=false] and "Store <id> is closed"; any other
    record gives [has_access=true] and "Access granted".  [store_id] and
    [project_id] are echoed in all three. *)
Theorem verifyStoreAccess_outcomes (w : World) (call : Call) (shop : JsVal) :
  valid_store_request call ->
  store_lookup w call = Return shop ->
  let store_id := Request.store_id (request call) in
  let project_id := Request.project_id (request call) in
  (truthy shop = false ->
   reply_of (verifyStoreAccess w call) =
     Done (callback_ok
       {| StoreAccessResult.has_access := false;
          StoreAccessResult.message :=
            "Store " ++ to_string store_id ++ " not found";
          StoreAccessResult.store_id := store_id;
          StoreAccessResult.project_id := project_id |})) /\
  (truthy shop = true -> get_prop shop "status" = JStr "closed" ->
   reply_of (verifyStoreAccess w call) =
     Done (callback_ok
       {| StoreAccessResult.has_access := false;
          StoreAccessResult.message :=
            "Store " ++ to_string store_id ++ " is closed";
          StoreAccessResult.store_id := store_id;
          StoreAccessResult.project_id := project_id |})) /\
  (truthy shop = true -> get_prop shop "status" <> JStr "closed" ->
   reply_of (verifyStoreAccess w call) =
     Done (callback_ok
       {| StoreAccessResult.has_access := true;
          StoreAccessResult.message := "Access granted";
          StoreAccessResult.store_id := store_id;
          StoreAccessResult.project_id := project_id |})).
Proof.
  intros Hvalid Hshop store_id project_id.
  destruct (verifyStoreAccess_returns w call shop Hvalid Hshop) as [msg Hrun].
  unfold reply_of. rewrite Hrun. cbn [fst].
  repeat split.
  - intros Hfalsy. by rewrite (falsy_js_not _ Hfalsy).
  - intros Htruthy Hclosed. rewrite (truthy_js_not _ Htruthy).
    by rewrite (proj2 (strict_eq_str_true _ _) Hclosed).
  - intros Htruthy Hopen. rewrite (truthy_js_not _ Htruthy).
    by rewrite (strict_eq_str_false _ _ Hopen).
Qed.

Lemma verifyStoreAccess_outcomes_witness :
  reply_of (verifyStoreAccess (world_of (Return closed_shop) (Return JNull) 0)
              sample_call) =
    Done (callback_ok
      (StoreAccessResult.mk false "Store store-7 is closed"
         (JStr "store-7") (JStr "proj-1"))).
Proof.
  apply (verifyStoreAccess_outcomes
           (world_of (Return closed_shop) (Return JNull) 0)
           sample_call closed_shop); try reflexivity.
  split; reflexivity.
Defined.

(** ** GetStoreInfo *)

(** C6. On a valid request for which the Store Directory returns no
    record, [getStoreInfo] answers with a response (not an error) that has
    [exists=false], the empty name, the resolved environment, the empty
    metadata map, [updated_at=0], and the requested [store_id] and
    [project_id]. *)
Theorem getStoreInfo_not_found (w : World) (call : Call) (shop : JsVal) :
  valid_store_request call ->
  store_lookup w call = Return shop ->
  truthy shop = false ->
  reply_of (getStoreInfo w call) =
    Done (callback_ok
      {| StoreInfoResult.exists_ := false;
         StoreInfoResult.store_id := Request.store_id (request call);
         StoreInfoResult.name := JStr "";
         StoreInfoResult.environment := getEnvironmentFromMetadata call;
         StoreInfoResult.project_id := Request.project_id (request call);
         StoreInfoResult.metadata := ∅;
         StoreInfoResult.updated_at := JNum 0 |}).
Proof.
  intros Hvalid Hshop Hfalsy.
  destruct (getStoreInfo_returns w call shop Hvalid Hshop) as [msg Hrun].
  unfold reply_of. rewrite Hrun. cbn [fst].
  by rewrite (falsy_js_not _ Hfalsy).
Qed.

Lemma getStoreInfo_not_found_witness :
  reply_of (getStoreInfo (world_of (Return JNull) (Return JNull) 0)
              sample_call) =
    Done (callback_ok
      (StoreInfoResult.mk false (JStr "store-7") (JStr "") "prod"
         (JStr "proj-1") ∅ (JNum 0))).
Proof.
  apply (getStoreInfo_not_found (world_of (Return JNull) (Return JNull) 0)
           sample_call JNull); try reflexivity.
  split; reflexivity.
Defined.

Lemma js_or_absent (d : JsVal) : js_or JUndefined d = d.
Proof. reflexivity. Qed.

Lemma js_or_truthy (v d : JsVal) : truthy v = true -> js_or v d = v.
Proof. unfold js_or. by intros ->. Qed.

(** C7. On a valid request for which the Store Directory returns a
    record, [getStoreInfo] answers with [exists=true]; [store_id] is the
    record's [id], or the requested one when the record has none; [name] is
    the record's name, or the empty string; the metadata map has exactly the
    keys [status], [address], [contact_no], [shop_admin_email], [shopType],
    each holding the record's field, or, when the field is absent, the
    empty string ("store" for [shopType]). *)
Theorem getStoreInfo_found (w : World) (call : Call) (shop : JsVal) :
  valid_store_request call ->
  store_lookup w call = Return shop ->
  truthy shop = true ->
  exists resp,
    reply_of (getStoreInfo w call) = Done (callback_ok resp) /\
    StoreInfoResult.exists_ resp = true /\
    StoreInfoResult.store_id resp =
      (if truthy (get_prop shop "id") then get_prop shop "id"
       else Request.store_id (request call)) /\
    (get_prop shop "id" = JUndefined ->
     StoreInfoResult.store_id resp = Request.store_id (request call)) /\
    StoreInfoResult.name resp =
      (if truthy (get_prop shop "name") then get_prop shop "name"
       else JStr "") /\
    (get_prop shop "name" = JUndefined -> StoreInfoResult.name resp = JStr "") /\
    dom (StoreInfoResult.metadata resp) =
      ({[ "status"; "address"; "contact_no"; "shop_admin_email"; "shopType" ]}
         : gset string) /\
    (forall k, k ∈ dom (StoreInfoResult.metadata resp) ->
       StoreInfoResult.metadata resp !! k =
         Some (if truthy (get_prop shop k) then get_prop shop k
               else store_metadata_default k)) /\
    (forall k, k ∈ dom (StoreInfoResult.metadata resp) ->
       get_prop shop k = JUndefined ->
       StoreInfoResult.metadata resp !! k = Some (store_metadata_default k)).
Proof.
  intros Hvalid Hshop Htruthy.
  destruct (getStoreInfo_returns w call shop Hvalid Hshop) as [msg Hrun].
  exists (store_info_found w call shop).
  assert (dom (StoreInfoResult.metadata (store_info_found w call shop)) =
          ({[ "status"; "address"; "contact_no"; "shop_admin_email";
              "shopType" ]} : gset string)) as Hdom.
  { cbn [store_info_found StoreInfoResult.metadata].
    rewrite !dom_insert_L, dom_empty_L. set_solver. }
  assert (forall k,
    k ∈ dom (StoreInfoResult.metadata (store_info_found w call shop)) ->
    StoreInfoResult.metadata (store_info_found w call shop) !! k =
      Some (if truthy (get_prop shop k) then get_prop shop k
            else store_metadata_default k)) as Hval.
  { intros k Hk. rewrite Hdom in Hk.
    cbn [store_info_found StoreInfoResult.metadata].
    assert (k = "status" \/ k = "address" \/ k = "contact_no" \/
            k = "shop_admin_email" \/ k = "shopType") as Hcases.
    { revert Hk. rewrite !elem_of_union, !elem_of_singleton. tauto. }
    destruct Hcases as [-> | [-> | [-> | [-> | ->]]]]; reflexivity. }
  unfold reply_of. rewrite Hrun. cbn [fst].
  rewrite (truthy_js_not _ Htruthy).
  split; [reflexivity|]. split; [reflexivity|]. split; [reflexivity|].
  split. { cbn [store_info_found StoreInfoResult.store_id]. by intros ->. }
  split; [reflexivity|].
  split. { cbn [store_info_found StoreInfoResult.name]. by intros ->. }
  split; [exact Hdom|]. split; [exact Hval|].
  intros k Hk Habsent. rewrite (Hval k Hk), Habsent. reflexivity.
Qed.

Lemma getStoreInfo_found_witness :
  exists resp,
    reply_of (getStoreInfo (world_of (Return open_shop) (Return JNull) 0)
                sample_call) = Done (callback_ok resp) /\
    StoreInfoResult.exists_ resp = true.
Proof.
  destruct (getStoreInfo_found (world_of (Return open_shop) (Return JNull) 0)
              sample_call open_shop) as (resp & Hreply & Hexists & _).
  - split; reflexivity.
  - reflexivity.
  - reflexivity.
  - exists resp. split; assumption.
Defined.

(** ** GetProductByStripeCode: the store gate *)

(** C3. On a valid request for which the Store Directory returns no
    record, [getProductByStripeCode] answers with the not-found response
    ([exists=false], zero prices, the requested [store_id] as [shop_id], the
    requested [stripe_code], empty title, category, picture and id, empty
    metadata) and never queries the Product Catalog. *)
Theorem product_lookup_skipped_without_store
    (w : World) (call : Call) (shop : JsVal) :
  valid_product_request call ->
  store_lookup w call = Return shop ->
  truthy shop = false ->
  reply_of (getProductByStripeCode w call) =
    Done (callback_ok
      {| ProductLookupResult.exists_ := false;
         ProductLookupResult.stripe_code := Request.stripe_code (request call);
         ProductLookupResult.title := JStr "";
         ProductLookupResult.category := JStr "";
         ProductLookupResult.picture := JStr "";
         ProductLookupResult.price := JNum 0;
         ProductLookupResult.purchase_price := JNum 0;
         ProductLookupResult.shop_id := Request.store_id (request call);
         ProductLookupResult._id := JStr "";
         ProductLookupResult.metadata := ∅ |}) /\
  product_lookups (trace_of (getProductByStripeCode w call)) = 0%nat.
Proof.
  intros Hvalid Hshop Hfalsy.
  destruct (getProductByStripeCode_no_store w call shop Hvalid Hshop Hfalsy)
    as [msg Hrun].
  unfold reply_of, trace_of. rewrite Hrun. split; reflexivity.
Qed.

Lemma product_lookup_skipped_witness :
  product_lookups
    (trace_of (getProductByStripeCode
                 (world_of (Return JNull) (Return example_product) 0)
                 sample_call)) = 0%nat.
Proof.
  apply (product_lookup_skipped_without_store
           (world_of (Return JNull) (Return example_product) 0)
           sample_call JNull).
  - repeat split; reflexivity.
  - reflexivity.
  - reflexivity.
Defined.

(** ** Collaborator failures *)

(** C8. On a valid request, when a collaborator lookup throws an error
    whose [message] is [text], every handler answers [callback] with an
    INTERNAL error whose message is "Internal error: " followed by [text]
    (the handler itself completes; nothing is rethrown).  This holds for the
    store lookup of the three handlers and for the catalog lookup of
    [getProductByStripeCode].  A lookup that returns, record or not, is
    never answered with an error. *)
Theorem collaborator_failure_is_internal (w : World) (call : Call) :
  (valid_store_request call ->
   (forall e text,
      get_prop e "message" = JStr text ->
      store_lookup w call = Throw e ->
      reply_of (verifyStoreAccess w call) =
        Done (callback_error INTERNAL ("Internal error: " ++ text)) /\
      reply_of (getStoreInfo w call) =
        Done (callback_error INTERNAL ("Internal error: " ++ text))) /\
   (forall shop, store_lookup w call = Return shop ->
      (exists resp,
         reply_of (verifyStoreAccess w call) = Done (callback_ok resp)) /\
      (exists resp,
         reply_of (getStoreInfo w call) = Done (callback_ok resp)))) /\
  (valid_product_request call ->
   (forall e text,
      get_prop e "message" = JStr text ->
      (store_lookup w call = Throw e ->
       reply_of (getProductByStripeCode w call) =
         Done (callback_error INTERNAL ("Internal error: " ++ text))) /\
      (forall shop, store_lookup w call = Return shop -> truthy shop = true ->
       catalog_lookup w call = Throw e ->
       reply_of (getProductByStripeCode w call) =
         Done (callback_error INTERNAL ("Internal error: " ++ text)))) /\
   (forall shop, store_lookup w call = Return shop ->
      (truthy shop = false ->
       exists resp,
         reply_of (getProductByStripeCode w call) = Done (callback_ok resp)) /\
      (forall product, truthy shop = true ->
       catalog_lookup w call = Return product ->
       exists resp,
         reply_of (getProductByStripeCode w call) = Done (callback_ok resp)))).
Proof.
  assert (forall e text, get_prop e "message" = JStr text ->
          e <> JUndefined /\ e <> JNull) as Hobj
    by (intros e text Hmsg; split; intros ->; discriminate).
  split.
  - intros Hstore. split.
    + intros e text Hmsg Hthrow. destruct (Hobj e text Hmsg) as [Hu Hn].
      destruct (verifyStoreAccess_throws w call e Hstore Hthrow) as [m1 H1].
      destruct (getStoreInfo_throws w call e Hstore Hthrow) as [m2 H2].
      unfold reply_of. rewrite H1, H2.
      rewrite !on_error_run by assumption. rewrite Hmsg. done.
    + intros shop Hshop.
      destruct (verifyStoreAccess_returns w call shop Hstore Hshop) as [m1 H1].
      destruct (getStoreInfo_returns w call shop Hstore Hshop) as [m2 H2].
      unfold reply_of. rewrite H1, H2. eauto.
  - intros Hvalid. split.
    + intros e text Hmsg. destruct (Hobj e text Hmsg) as [Hu Hn]. split.
      * intros Hthrow.
        destruct (getProductByStripeCode_store_throws w call e Hvalid Hthrow)
          as [m Hrun].
        unfold reply_of. rewrite Hrun.
        rewrite on_error_run by assumption. rewrite Hmsg. done.
      * intros shop Hshop Htruthy Hthrow.
        destruct (getProductByStripeCode_catalog_throws w call shop e
                    Hvalid Hshop Htruthy Hthrow) as [m Hrun].
        unfold reply_of. rewrite Hrun.
        rewrite on_error_run by assumption. rewrite Hmsg. done.
    + intros shop Hshop. unfold reply_of. split.
      * intros Hfalsy.
        destruct (getProductByStripeCode_no_store w call shop
                    Hvalid Hshop Hfalsy) as [m Hrun].
        rewrite Hrun. eauto.
      * intros product Htruthy Hprod.
        destruct (getProductByStripeCode_returns w call shop product
                    Hvalid Hshop Htruthy Hprod) as (m & tail & Hrun & _).
        rewrite Hrun. eauto.
Qed.

Lemma collaborator_failure_witness :
  reply_of (verifyStoreAccess (world_of (Throw boom) (Return JNull) 0)
              sample_call) =
    Done (callback_error INTERNAL "Internal error: table offline") /\
  reply_of (getProductByStripeCode
              (world_of (Return open_shop) (Throw boom) 0) sample_call) =
    Done (callback_error INTERNAL "Internal error: table offline").
Proof.
  split.
  - destruct (collaborator_failure_is_internal
                (world_of (Throw boom) (Return JNull) 0) sample_call)
      as [Hstore _].
    destruct Hstore as [Hthrow _]; [split; reflexivity|].
    apply (Hthrow boom "table offline"); reflexivity.
  - destruct (collaborator_failure_is_internal
                (world_of (Return open_shop) (Throw boom) 0) sample_call)
      as [_ Hproduct].
    destruct Hproduct as [Hthrow _]; [repeat split; reflexivity|].
    destruct (Hthrow boom "table offline") as [_ Hcatalog]; [reflexivity|].
    apply (Hcatalog open_shop); reflexivity.
Defined.

(** ** GetProductByStripeCode: the metadata map *)

Lemma assoc_app (k : string) (l1 l2 : list (string * JsVal)) :
  assoc k (l1 ++ l2) =
    match assoc k l1 with Some v => Some v | None => assoc k l2 end.
Proof.
  induction l1 as [|[k' v'] l1 IH]; [reflexivity|].
  simpl. destruct (String.eqb k' k); [reflexivity | exact IH].
Qed.

Lemma last_assoc_cons (k k' : string) (v' : JsVal) (l : list (string * JsVal)) :
  last_assoc k ((k', v') :: l) =
    match last_assoc k l with
    | Some v => Some v
    | None => if String.eqb k' k then Some v' else None
    end.
Proof. unfold last_assoc. simpl. by rewrite assoc_app. Qed.

Lemma convert_entry_insert (m : gmap string JsVal) (k : string) (v : JsVal) :
  k <> "__proto__" -> convert_entry m (k, v) = <[k := convert_value v]> m.
Proof.
  intros Hk. unfold convert_entry, convert_value, assign_text.
  destruct (String.eqb_spec k "__proto__") as [-> | _]; [done|].
  by destruct (typeof_object v).
Qed.

Lemma convert_entry_proto (m : gmap string JsVal) (v : JsVal) :
  convert_entry m ("__proto__", v) = m.
Proof. unfold convert_entry, assign_text. by destruct (typeof_object v). Qed.

(** After the loop, an ordinary key holds the conversion of its last
    entry, or what it held before when no entry names it. *)
Lemma fold_convert_entry_lookup (l : list (string * JsVal))
    (m : gmap string JsVal) (k : string) :
  k <> "__proto__" ->
  fold_left convert_entry l m !! k =
    match last_assoc k l with
    | Some v => Some (convert_value v)
    | None => m !! k
    end.
Proof.
  intros Hk. revert m. induction l as [|[k' v'] l IH]; intros m; [reflexivity|].
  cbn [fold_left]. rewrite IH, last_assoc_cons.
  destruct (last_assoc k l); [reflexivity|].
  destruct (String.eqb_spec k' k) as [-> | Hne].
  - rewrite convert_entry_insert by done. by rewrite lookup_insert_eq.
  - destruct (decide (k' = "__proto__")) as [-> | Hk'].
    + by rewrite convert_entry_proto.
    + rewrite convert_entry_insert by done. by rewrite lookup_insert_ne.
Qed.

(** The loop never makes an entry named [__proto__]. *)
Lemma fold_convert_entry_proto (l : list (string * JsVal))
    (m : gmap string JsVal) :
  fold_left convert_entry l m !! "__proto__" = m !! "__proto__".
Proof.
  revert m. induction l as [|[k' v'] l IH]; intros m; [reflexivity|].
  cbn [fold_left]. rewrite IH.
  destruct (decide (k' = "__proto__")) as [-> | Hk'].
  - by rewrite convert_entry_proto.
  - rewrite convert_entry_insert by done. by rewrite lookup_insert_ne.
Qed.

Lemma free_form_lookup (product : JsVal) (k : string) :
  k <> "__proto__" ->
  (if truthy (get_prop product "metadata")
      && typeof_object (get_prop product "metadata")
   then fold_left convert_entry (Object_entries (get_prop product "metadata")) ∅
   else (∅ : gmap string JsVal)) !! k = free_form product k.
Proof.
  intros Hk. unfold free_form. destruct (_ && _); [|apply lookup_empty].
  rewrite fold_convert_entry_lookup by done.
  destruct (last_assoc k _); [reflexivity | apply lookup_empty].
Qed.

(** Pointwise reading of the map built in the found-product branch, at an
    ordinary key: a fixed field, when it contributes, wins over the
    free-form entry. *)
Lemma product_metadata_lookup (product : JsVal) (k : string) :
  k <> "__proto__" ->
  product_metadata product !! k =
    match fixed_field product k with
    | Some v => Some v
    | None => free_form product k
    end.
Proof.
  intros Hk. unfold product_metadata, fixed_field.
  rewrite <- (free_form_lookup product k Hk).
  set (base := if _ && _ then _ else _).
  destruct (truthy (get_prop product "units")),
           (is_defined (get_prop product "isVending")),
           (is_defined (get_prop product "availableItems"));
    repeat case_decide; subst; simplify_map_eq; reflexivity.
Qed.

(** The map built in the found-product branch has no entry named
    [__proto__]. *)
Lemma product_metadata_proto (product : JsVal) :
  product_metadata product !! "__proto__" = None.
Proof.
  unfold product_metadata.
  set (base := if _ && _ then _ else _).
  assert (base !! "__proto__" = None) as Hbase.
  { subst base. destruct (_ && _); [|apply lookup_empty].
    rewrite fold_convert_entry_proto. apply lookup_empty. }
  destruct (truthy (get_prop product "units")),
           (is_defined (get_prop product "isVending")),
           (is_defined (get_prop product "availableItems"));
    rewrite ?lookup_insert_ne by discriminate; exact Hbase.
Qed.



(** A catalog hit: the request is valid, the store was found and the
    Product Catalog returned a record. *)
Lemma found_product_reply (w : World) (call : Call) (shop product : JsVal) :
  valid_product_request call ->
  store_lookup w call = Return shop -> truthy shop = true ->
  catalog_lookup w call = Return product -> truthy product = true ->
  reply_of (getProductByStripeCode w call) =
    Done (callback_ok (product_found call product)).
Proof.
  intros Hvalid Hshop Hs Hprod Hp.
  destruct (getProductByStripeCode_returns w call shop product
              Hvalid Hshop Hs Hprod) as (m & tail & Hrun & _).
  unfold reply_of. rewrite Hrun. cbn [fst]. by rewrite (truthy_js_not _ Hp).
Qed.




(** C10. In the found-product branch the three fixed injections are
    asymmetric.  [units] is written only when truthy: for a falsy [units]
    (0, the empty string, false, ...) the [units] key holds nothing but what
    the free-form metadata put there, so no key at all when that has none.
    [isVending] and [availableItems] are written whenever they are not
    [undefined], the values false, 0 and null included, each stringified. *)
Theorem fixed_injections_asymmetric
    (w : World) (call : Call) (shop product : JsVal) :
  valid_product_request call ->
  store_lookup w call = Return shop -> truthy shop = true ->
  catalog_lookup w call = Return product -> truthy product = true ->
  exists resp,
    reply_of (getProductByStripeCode w call) = Done (callback_ok resp) /\
    let md := ProductLookupResult.metadata resp in
    let units := get_prop product "units" in
    (truthy units = true -> md !! "units" = Some (JStr (to_string units))) /\
    (truthy units = false -> md !! "units" = free_form product "units") /\
    (units = JNum 0 \/ units = JStr "" \/ units = JBool false ->
     free_form product "units" = None -> md !! "units" = None) /\
    (forall name, name = "isVending" \/ name = "availableItems" ->
       let v := get_prop product name in
       (v <> JUndefined -> md !! name = Some (JStr (to_string v))) /\
       (v = JUndefined -> md !! name = free_form product name) /\
       (v = JBool false -> md !! name = Some (JStr "false")) /\
       (v = JNum 0 -> md !! name = Some (JStr "0")) /\
       (v = JNull -> md !! name = Some (JStr "null"))).
Proof.
  intros Hvalid Hshop Hs Hprod Hp.
  exists (product_found call product).
  split; [by eapply found_product_reply|].
  cbn [product_found ProductLookupResult.metadata]. cbv zeta.
  assert (truthy (get_prop product "units") = false ->
          product_metadata product !! "units" = free_form product "units")
    as Hfalsy.
  { intros Hu. rewrite product_metadata_lookup by discriminate.
    unfold fixed_field. rewrite decide_True by reflexivity. by rewrite Hu. }
  split.
  { intros Hu. rewrite product_metadata_lookup by discriminate.
    unfold fixed_field. rewrite decide_True by reflexivity. by rewrite Hu. }
  split; [exact Hfalsy|].
  split.
  { intros Hu Hfree. rewrite Hfalsy; [exact Hfree|].
    destruct Hu as [-> | [-> | ->]]; reflexivity. }
  intros name Hname.
  assert (name <> "__proto__") as Hordinary
    by (destruct Hname as [-> | ->]; discriminate).
  assert (forall v, get_prop product name = v -> v <> JUndefined ->
          product_metadata product !! name = Some (JStr (to_string v)))
    as Hdefined.
  { intros v Hv Hne. rewrite product_metadata_lookup by exact Hordinary.
    unfold fixed_field.
    destruct Hname as [-> | ->]; repeat case_decide; try discriminate;
      try congruence; rewrite Hv; by destruct v. }
  split; [intros Hne; by apply Hdefined|].
  split.
  { intros Hv. rewrite product_metadata_lookup by exact Hordinary.
    unfold fixed_field.
    destruct Hname as [-> | ->]; repeat case_decide; try discriminate;
      try congruence; by rewrite Hv. }
  split; [|split]; intros Hv; by rewrite (Hdefined _ Hv).
Qed.

Lemma fixed_injections_witness :
  exists resp,
    reply_of (getProductByStripeCode
                (world_of (Return open_shop) (Return zero_units_product) 0)
                sample_call) = Done (callback_ok resp) /\
    ProductLookupResult.metadata resp !! "units" = None.
Proof.
  destruct (fixed_injections_asymmetric
              (world_of (Return open_shop) (Return zero_units_product) 0)
              sample_call open_shop zero_units_product)
    as (resp & Hreply & _ & _ & Hzero & _).
  - repeat split; reflexivity.
  - reflexivity.
  - reflexivity.
  - reflexivity.
  - reflexivity.
  - exists resp. split; [exact Hreply|].
    apply Hzero; [left; reflexivity | reflexivity].
Defined.

(** ** Environment resolution *)

Lemma normalize_env_code (v : string) :
  (if String.eqb v "prod" || String.eqb v "master" then v else "demo")
  = normalize_env v.
Proof.
  unfold normalize_env.
  destruct (String.eqb_spec v "prod") as [-> | Hp]; [reflexivity|].
  destruct (String.eqb_spec v "master") as [-> | Hm]; [reflexivity|].
  rewrite decide_False by tauto. reflexivity.
Qed.

Lemma getEnvironment_from_env (call : Call) (v : string) (rest : list string) :
  metadata call !! "env" = Some (v :: rest) ->
  getEnvironmentFromMetadata call = normalize_env v.
Proof.
  intros Henv. unfold getEnvironmentFromMetadata, Metadata_get.
  rewrite Henv. cbn. apply normalize_env_code.
Qed.

Lemma getEnvironment_fallback (call : Call) :
  metadata call !! "env" = None \/ metadata call !! "env" = Some [] ->
  getEnvironmentFromMetadata call =
    match Metadata_get (metadata call) "x-environment" with
    | v :: _ => normalize_env v
    | [] => "demo"
    end.
Proof.
  intros Henv. unfold getEnvironmentFromMetadata.
  replace (Metadata_get (metadata call) "env") with (@nil string)
    by (unfold Metadata_get; by destruct Henv as [-> | ->]).
  cbn. destruct (Metadata_get _ _); [reflexivity | apply normalize_env_code].
Qed.

(** The resolver of the code against the resolver the specification
    words. *)
Lemma getEnvironment_spec (call : Call) :
  head (Metadata_get (metadata call) "env") <> Some "" ->
  getEnvironmentFromMetadata call = spec_getEnvironment call.
Proof.
  unfold getEnvironmentFromMetadata, spec_getEnvironment.
  destruct (Metadata_get (metadata call) "env") as [|v rest]; cbn.
  - intros _.
    destruct (Metadata_get _ _); [reflexivity | apply normalize_env_code].
  - intros Hne. rewrite decide_False by congruence. apply normalize_env_code.
Qed.

(** C2, as the code has it.  Resolution reads [env] first and falls back
    to [x-environment] only when [env] carries no value at all; the first
    value of the selected key passes through unchanged when it is exactly
    "prod" or "master", and everything else (no value, the empty string,
    another string, another casing) resolves to "demo".  The resolver agrees
    with the one the specification words unless the first [env] value is
    the empty string.  The four cases listed in the specification come out
    as stated. *)
Theorem getEnvironment_resolution (call : Call) :
  let md := metadata call in
  let resolved := getEnvironmentFromMetadata call in
  (forall v rest, md !! "env" = Some (v :: rest) -> resolved = normalize_env v) /\
  (md !! "env" = None \/ md !! "env" = Some [] ->
   (forall v rest, md !! "x-environment" = Some (v :: rest) ->
      resolved = normalize_env v) /\
   (md !! "x-environment" = None \/ md !! "x-environment" = Some [] ->
      resolved = "demo")) /\
  (forall v,
     (v = "prod" \/ v = "master" -> normalize_env v = v) /\
     (v <> "prod" -> v <> "master" -> normalize_env v = "demo")) /\
  normalize_env "" = "demo" /\ normalize_env "PROD" = "demo" /\
  normalize_env "Master" = "demo" /\
  (head (Metadata_get md "env") <> Some "" ->
   resolved = spec_getEnvironment call) /\
  (md = {[ "env" := ["prod"]; "x-environment" := ["demo"] ]} ->
   resolved = "prod") /\
  (md = {[ "x-environment" := ["master"] ]} -> resolved = "master") /\
  (md = {[ "env" := ["bogus"] ]} -> resolved = "demo") /\
  (md = ∅ -> resolved = "demo").
Proof.
  intros md resolved. subst md resolved.
  split; [intros v rest; apply getEnvironment_from_env|].
  split.
  { intros Henv. rewrite (getEnvironment_fallback call Henv).
    unfold Metadata_get. split.
    - by intros v rest ->.
    - by intros [-> | ->]. }
  split.
  { intros v. unfold normalize_env. split.
    - intros Hv. by rewrite decide_True.
    - intros Hp Hm. rewrite decide_False by tauto. reflexivity. }
  split; [reflexivity|]. split; [reflexivity|]. split; [reflexivity|].
  split; [apply getEnvironment_spec|].
  unfold getEnvironmentFromMetadata.
  repeat split; intros ->; reflexivity.
Qed.

Lemma getEnvironment_resolution_witness :
  getEnvironmentFromMetadata
    (call_of JNull JNull JNull {[ "x-environment" := ["master"] ]}) = "master".
Proof.
  apply (getEnvironment_resolution
           (call_of JNull JNull JNull {[ "x-environment" := ["master"] ]})).
  reflexivity.
Defined.

(** C2 as stated fails: with the empty string under [env] and prod under
    [x-environment] the code does not fall back and answers demo, where the
    resolver the specification words answers prod. *)
Lemma empty_env_does_not_fall_back :
  Metadata_get (metadata call_empty_env) "env" = [""] /\
  Metadata_get (metadata call_empty_env) "x-environment" = ["prod"] /\
  getEnvironmentFromMetadata call_empty_env = "demo" /\
  spec_getEnvironment call_empty_env = "prod" /\
  getEnvironmentFromMetadata call_empty_env <> spec_getEnvironment call_empty_env.
Proof. repeat split. discriminate. Qed.

(** ** Repeated calls *)

Lemma verifyStoreAccess_same (w1 w2 : World) (call : Call) :
  getShopById w1 = getShopById w2 ->
  verifyStoreAccess w1 call = verifyStoreAccess w2 call.
Proof. intros Hshop. unfold verifyStoreAccess. by rewrite Hshop. Qed.

Lemma getProductByStripeCode_same (w1 w2 : World) (call : Call) :
  getShopById w1 = getShopById w2 ->
  getProductById2 w1 = getProductById2 w2 ->
  getProductByStripeCode w1 call = getProductByStripeCode w2 call.
Proof.
  intros Hshop Hprod. unfold getProductByStripeCode. by rewrite Hshop, Hprod.
Qed.

Lemma Date_getTime_same (w1 w2 : World) (v : JsVal) :
  Date_parse w1 = Date_parse w2 -> Date_getTime w1 v = Date_getTime w2 v.
Proof. intros Hparse. unfold Date_getTime. by rewrite Hparse. Qed.

(** The only way the clock reaches a reply of [getStoreInfo]. *)
Lemma getStoreInfo_same (w1 w2 : World) (call : Call) :
  same_collaborators w1 w2 ->
  (forall shop, store_lookup w1 call = Return shop -> truthy shop = true ->
     truthy (get_prop shop "updated_at") = false ->
     Date_now w1 / 1000 = Date_now w2 / 1000) ->
  run (getStoreInfo w1 call) = run (getStoreInfo w2 call).
Proof.
  intros (Hshop & _ & Hparse) Hclock. unfold_handler. rewrite <- Hshop.
  destruct (js_not _ || js_not _); [reflexivity|]. cbn.
  destruct (getShopById w1 _ _) as [shop|e] eqn:Hlookup; [|reflexivity].
  unfold js_not. destruct (truthy shop) eqn:Htruthy; [|reflexivity]. cbn.
  destruct (truthy (get_prop shop "updated_at")) eqn:Hstamp.
  - by rewrite (Date_getTime_same w1 w2 _ Hparse).
  - cbn. by rewrite (Hclock shop eq_refl Htruthy Hstamp).
Qed.

(** C9, as the code has it.  Against unchanged collaborators two identical
    calls get identical replies from [verifyStoreAccess] and from
    [getProductByStripeCode] whatever the clock shows, and from
    [getStoreInfo] when the two calls fall in the same wall-clock second or
    when no found record lacks a last-updated timestamp.  For a found record
    without one, [updated_at] is the wall-clock second of the call and the
    rest of the response is the same. *)
Theorem repeated_calls_agree_up_to_clock (w1 w2 : World) (call : Call) :
  same_collaborators w1 w2 ->
  reply_of (verifyStoreAccess w1 call) = reply_of (verifyStoreAccess w2 call) /\
  reply_of (getProductByStripeCode w1 call) =
    reply_of (getProductByStripeCode w2 call) /\
  (Date_now w1 / 1000 = Date_now w2 / 1000 ->
   reply_of (getStoreInfo w1 call) = reply_of (getStoreInfo w2 call)) /\
  ((forall shop, store_lookup w1 call = Return shop -> truthy shop = true ->
      truthy (get_prop shop "updated_at") = true) ->
   reply_of (getStoreInfo w1 call) = reply_of (getStoreInfo w2 call)) /\
  (forall shop,
     valid_store_request call ->
     store_lookup w1 call = Return shop -> truthy shop = true ->
     truthy (get_prop shop "updated_at") = false ->
     exists r1 r2,
       reply_of (getStoreInfo w1 call) = Done (callback_ok r1) /\
       reply_of (getStoreInfo w2 call) = Done (callback_ok r2) /\
       StoreInfoResult.updated_at r1 = JNum (Date_now w1 / 1000) /\
       StoreInfoResult.updated_at r2 = JNum (Date_now w2 / 1000) /\
       StoreInfoResult.exists_ r1 = StoreInfoResult.exists_ r2 /\
       StoreInfoResult.store_id r1 = StoreInfoResult.store_id r2 /\
       StoreInfoResult.name r1 = StoreInfoResult.name r2 /\
       StoreInfoResult.environment r1 = StoreInfoResult.environment r2 /\
       StoreInfoResult.project_id r1 = StoreInfoResult.project_id r2 /\
       StoreInfoResult.metadata r1 = StoreInfoResult.metadata r2).
Proof.
  intros Hsame. pose proof Hsame as (Hshop & Hprod & Hparse).
  split. { unfold reply_of. by rewrite (verifyStoreAccess_same w1 w2). }
  split. { unfold reply_of. by rewrite (getProductByStripeCode_same w1 w2). }
  split.
  { intros Hclock. unfold reply_of.
    by rewrite (getStoreInfo_same w1 w2 call Hsame). }
  split.
  { intros Hstamped. unfold reply_of.
    rewrite (getStoreInfo_same w1 w2 call Hsame); [reflexivity|].
    intros shop Hlookup Htruthy Hstamp.
    rewrite (Hstamped shop Hlookup Htruthy) in Hstamp. discriminate. }
  intros shop Hvalid Hlookup Htruthy Hstamp.
  assert (store_lookup w2 call = Return shop) as Hlookup2
    by (unfold store_lookup in *; by rewrite <- Hshop).
  destruct (getStoreInfo_returns w1 call shop Hvalid Hlookup) as [m1 H1].
  destruct (getStoreInfo_returns w2 call shop Hvalid Hlookup2) as [m2 H2].
  exists (store_info_found w1 call shop), (store_info_found w2 call shop).
  unfold reply_of. rewrite H1, H2. cbn [fst].
  rewrite (truthy_js_not _ Htruthy).
  cbn [store_info_found StoreInfoResult.updated_at StoreInfoResult.exists_
       StoreInfoResult.store_id StoreInfoResult.name
       StoreInfoResult.environment StoreInfoResult.project_id
       StoreInfoResult.metadata].
  rewrite Hstamp. repeat split; reflexivity.
Qed.

Lemma repeated_calls_witness :
  reply_of (verifyStoreAccess (world_of (Return open_shop) (Return JNull) 1000)
              sample_call) =
  reply_of (verifyStoreAccess (world_of (Return open_shop) (Return JNull) 2000)
              sample_call).
Proof.
  apply (repeated_calls_agree_up_to_clock
           (world_of (Return open_shop) (Return JNull) 1000)
           (world_of (Return open_shop) (Return JNull) 2000) sample_call).
  repeat split; reflexivity.
Defined.

(** C9 as stated fails: the same call against the same Store Directory, one
    second apart, for a found record without a last-updated timestamp, gets
    two different replies from [getStoreInfo]. *)
Lemma getStoreInfo_reads_the_clock :
  same_collaborators (world_of (Return open_shop) (Return JNull) 1000)
                     (world_of (Return open_shop) (Return JNull) 2000) /\
  get_prop open_shop "updated_at" = JUndefined /\
  reply_of (getStoreInfo (world_of (Return open_shop) (Return JNull) 1000)
              sample_call) <>
  reply_of (getStoreInfo (world_of (Return open_shop) (Return JNull) 2000)
              sample_call).
Proof.
  split; [repeat split; reflexivity|]. split; [reflexivity|].
  intros Heq.
  apply (f_equal (fun r : Result (Reply StoreInfoResult.t) =>
                    match r with
                    | Done (callback_ok resp) => StoreInfoResult.updated_at resp
                    | _ => JUndefined
                    end)) in Heq.
  vm_compute in Heq. discriminate.
Qed.

(** * Further properties of the handlers *)

Lemma validity_cases (call : Call) :
  valid_store_request call \/
  js_not (Request.project_id (request call))
  || js_not (Request.store_id (request call)) = true.
Proof.
  unfold valid_store_request, js_not.
  destruct (truthy (Request.project_id _)), (truthy (Request.store_id _));
    auto.
Qed.

Lemma product_validity_cases (call : Call) :
  valid_product_request call \/
  js_not (Request.project_id (request call))
  || js_not (Request.store_id (request call))
  || js_not (Request.stripe_code (request call)) = true.
Proof.
  unfold valid_product_request, valid_store_request, js_not.
  destruct (truthy (Request.project_id _)), (truthy (Request.store_id _)),
    (truthy (Request.stripe_code _)); auto.
Qed.

(** The [catch] block on any thrown value. *)
Lemma on_error_any {R} (log : string) (e : JsVal) (tr : list Event) :
  @on_error R log e tr =
    (if is_nullish e then Raised TypeError
     else Done (callback_error INTERNAL
                  ("Internal error: " ++ to_string (get_prop e "message"))),
     (tr ++ [LogError log e])%list).
Proof. by destruct e. Qed.

(** X1. Whatever the metadata, the resolved environment is one of prod,
    master and demo. *)
Theorem environment_is_closed (call : Call) :
  getEnvironmentFromMetadata call = "prod" \/
  getEnvironmentFromMetadata call = "master" \/
  getEnvironmentFromMetadata call = "demo".
Proof.
  assert (forall v, normalize_env v = "prod" \/ normalize_env v = "master" \/
                    normalize_env v = "demo") as Hnorm.
  { intros v. unfold normalize_env. case_decide as Hv; [|auto].
    destruct Hv as [-> | ->]; auto. }
  unfold getEnvironmentFromMetadata.
  destruct (Metadata_get (metadata call) "env") as [|v rest]; cbn.
  - destruct (Metadata_get _ _) as [|v rest]; [auto|].
    rewrite normalize_env_code. apply Hnorm.
  - rewrite normalize_env_code. apply Hnorm.
Qed.

Lemma invalid_not_valid (call : Call) :
  js_not (Request.project_id (request call))
  || js_not (Request.store_id (request call)) = true ->
  truthy (Request.project_id (request call))
  && truthy (Request.store_id (request call)) = false.
Proof.
  unfold js_not.
  destruct (truthy (Request.project_id _)), (truthy (Request.store_id _));
    done.
Qed.

Lemma invalid_product_not_valid (call : Call) :
  js_not (Request.project_id (request call))
  || js_not (Request.store_id (request call))
  || js_not (Request.stripe_code (request call)) = true ->
  truthy (Request.project_id (request call))
  && truthy (Request.store_id (request call))
  && truthy (Request.stripe_code (request call)) = false.
Proof.
  unfold js_not.
  destruct (truthy (Request.project_id _)), (truthy (Request.store_id _)),
    (truthy (Request.stripe_code _)); done.
Qed.

Lemma valid_store_true (call : Call) :
  valid_store_request call ->
  truthy (Request.project_id (request call))
  && truthy (Request.store_id (request call)) = true.
Proof. intros [-> ->]. reflexivity. Qed.

Lemma valid_product_true (call : Call) :
  valid_product_request call ->
  truthy (Request.project_id (request call))
  && truthy (Request.store_id (request call))
  && truthy (Request.stripe_code (request call)) = true.
Proof. intros [[-> ->] ->]. reflexivity. Qed.

(** Every way [verifyStoreAccess] can run. *)
Ltac verify_cases w call :=
  let Hvalid := fresh "Hvalid" in
  let Hbad := fresh "Hbad" in
  let Hlookup := fresh "Hlookup" in
  let Hrun := fresh "Hrun" in
  let msg := fresh "msg" in
  destruct (validity_cases call) as [Hvalid | Hbad];
  [ destruct (store_lookup w call) as [?shop | ?e] eqn:Hlookup;
    [ destruct (verifyStoreAccess_returns w call _ Hvalid Hlookup) as [msg Hrun]
    | destruct (verifyStoreAccess_throws w call _ Hvalid Hlookup) as [msg Hrun] ];
    rewrite ?(valid_store_true call Hvalid)
  | pose proof (verifyStoreAccess_invalid w call Hbad) as Hrun;
    rewrite ?(invalid_not_valid call Hbad) ];
  unfold reply_of, trace_of; rewrite Hrun, ?on_error_any.

Ltac info_cases w call :=
  let Hvalid := fresh "Hvalid" in
  let Hbad := fresh "Hbad" in
  let Hlookup := fresh "Hlookup" in
  let Hrun := fresh "Hrun" in
  let msg := fresh "msg" in
  destruct (validity_cases call) as [Hvalid | Hbad];
  [ destruct (store_lookup w call) as [?shop | ?e] eqn:Hlookup;
    [ destruct (getStoreInfo_returns w call _ Hvalid Hlookup) as [msg Hrun]
    | destruct (getStoreInfo_throws w call _ Hvalid Hlookup) as [msg Hrun] ];
    rewrite ?(valid_store_true call Hvalid)
  | pose proof (getStoreInfo_invalid w call Hbad) as Hrun;
    rewrite ?(invalid_not_valid call Hbad) ];
  unfold reply_of, trace_of; rewrite Hrun, ?on_error_any.

(** A catalog lookup that returns, with the whole trace. *)
Lemma getProductByStripeCode_catalog_returns
    (w : World) (call : Call) (shop product : JsVal) :
  valid_product_request call -> store_lookup w call = Return shop ->
  truthy shop = true -> catalog_lookup w call = Return product ->
  exists msg msg',
    run (getProductByStripeCode w call) =
      (Done (callback_ok
         (if truthy product then product_found call product
          else product_not_found (Request.stripe_code (request call))
                 (Request.store_id (request call)))),
       ([LogInfo msg;
         ShopLookup (getEnvironmentFromMetadata call)
           (Request.store_id (request call));
         ProductLookup (getEnvironmentFromMetadata call)
           (Request.store_id (request call))
           (Request.stripe_code (request call))]
        ++ (if truthy product then [] else [LogInfo msg']))%list).
Proof.
  intros [[Hp Hs] Hc] Hshop Htruthy Hprod. unfold_handler.
  rewrite (truthy_js_not _ Hp), (truthy_js_not _ Hs), (truthy_js_not _ Hc).
  rewrite Hshop. simpl. rewrite (truthy_js_not _ Htruthy), Hprod. simpl.
  unfold js_not. destruct (truthy product); cbn.
  - eexists. exists "". reflexivity.
  - do 2 eexists. reflexivity.
Qed.

Ltac product_cases w call :=
  let Hvalid := fresh "Hvalid" in
  let Hbad := fresh "Hbad" in
  let Hlookup := fresh "Hlookup" in
  let Hcatalog := fresh "Hcatalog" in
  let Hshop := fresh "Hshop" in
  let Hproduct := fresh "Hproduct" in
  let Hrun := fresh "Hrun" in
  let msg := fresh "msg" in
  let msg' := fresh "msg'" in
  destruct (product_validity_cases call) as [Hvalid | Hbad];
  [ destruct (store_lookup w call) as [?shop | ?e] eqn:Hlookup;
    [ match goal with
      | H : store_lookup w call = Return ?s |- _ =>
          destruct (truthy s) eqn:Hshop;
          [ destruct (catalog_lookup w call) as [?product | ?e] eqn:Hcatalog;
            [ destruct (getProductByStripeCode_catalog_returns w call _ _
                          Hvalid H Hshop Hcatalog) as (msg & msg' & Hrun);
              match goal with
              | H' : catalog_lookup w call = Return ?p |- _ =>
                  destruct (truthy p) eqn:Hproduct
              end
            | destruct (getProductByStripeCode_catalog_throws w call _ _
                          Hvalid H Hshop Hcatalog) as [msg Hrun] ]
          | destruct (getProductByStripeCode_no_store w call _
                        Hvalid H Hshop) as [msg Hrun] ]
      end
    | destruct (getProductByStripeCode_store_throws w call _ Hvalid Hlookup)
        as [msg Hrun] ];
    rewrite ?(valid_product_true call Hvalid)
  | pose proof (getProductByStripeCode_invalid w call Hbad) as Hrun;
    rewrite ?(invalid_product_not_valid call Hbad) ];
  unfold reply_of, trace_of; rewrite Hrun, ?on_error_any.

(** X2. Each handler queries the Store Directory exactly once on a request
    that passes validation and not at all otherwise, whatever the lookup
    answers; the two store handlers never query the Product Catalog. *)
Theorem one_store_lookup_per_valid_call (w : World) (call : Call) :
  let valid := truthy (Request.project_id (request call))
               && truthy (Request.store_id (request call)) in
  shop_lookups (trace_of (verifyStoreAccess w call)) =
    (if valid then 1 else 0)%nat /\
  shop_lookups (trace_of (getStoreInfo w call)) =
    (if valid then 1 else 0)%nat /\
  shop_lookups (trace_of (getProductByStripeCode w call)) =
    (if valid && truthy (Request.stripe_code (request call)) then 1 else 0)%nat /\
  product_lookups (trace_of (verifyStoreAccess w call)) = 0%nat /\
  product_lookups (trace_of (getStoreInfo w call)) = 0%nat.
Proof.
  cbv zeta. repeat split.
  - verify_cases w call; reflexivity.
  - info_cases w call; reflexivity.
  - product_cases w call; reflexivity.
  - verify_cases w call; reflexivity.
  - info_cases w call; reflexivity.
Qed.

(** X3. [getProductByStripeCode] queries the Product Catalog exactly once
    when the request is valid and the Store Directory returned a record,
    and never otherwise (invalid request, no record, failed store
    lookup). *)
Theorem catalog_queried_only_for_found_store (w : World) (call : Call) :
  product_lookups (trace_of (getProductByStripeCode w call)) =
    match store_lookup w call with
    | Return shop =>
        if truthy (Request.project_id (request call))
           && truthy (Request.store_id (request call))
           && truthy (Request.stripe_code (request call))
           && truthy shop
        then 1%nat else 0%nat
    | Throw _ => 0%nat
    end.
Proof.
  product_cases w call; rewrite ?Hshop; try reflexivity.
  by destruct (store_lookup w call).
Qed.

(** X4. A handler reads the Store Directory only at the environment
    resolved from the call's metadata and the [store_id] of the request,
    and the Product Catalog only at these and the [stripe_code] of the
    request: against two worlds that agree there (and, for [getStoreInfo],
    on clock and date parser) it runs alike, whatever they answer
    elsewhere. *)
Theorem handlers_read_the_requested_record (w1 w2 : World) (call : Call) :
  store_lookup w1 call = store_lookup w2 call ->
  run (verifyStoreAccess w1 call) = run (verifyStoreAccess w2 call) /\
  (Date_now w1 = Date_now w2 -> Date_parse w1 = Date_parse w2 ->
   run (getStoreInfo w1 call) = run (getStoreInfo w2 call)) /\
  (catalog_lookup w1 call = catalog_lookup w2 call ->
   run (getProductByStripeCode w1 call) =
   run (getProductByStripeCode w2 call)).
Proof.
  intros Hstore. repeat split.
  - unfold_handler. by rewrite Hstore.
  - intros Hnow Hparse. unfold_handler. unfold Date_getTime.
    by rewrite Hstore, Hnow, Hparse.
  - intros Hcatalog. unfold_handler. by rewrite Hstore, Hcatalog.
Qed.

(** X5. A handler writes exactly one error-severity log line when it
    answers INTERNAL or ends unanswered, and none in every other case
    (validation errors and not-found results are not logged as errors). *)
Theorem failures_are_logged_once (w : World) (call : Call) :
  error_logs (trace_of (verifyStoreAccess w call)) =
    (if is_error_reply INTERNAL (reply_of (verifyStoreAccess w call))
        || is_unanswered (reply_of (verifyStoreAccess w call))
     then 1 else 0)%nat /\
  error_logs (trace_of (getStoreInfo w call)) =
    (if is_error_reply INTERNAL (reply_of (getStoreInfo w call))
        || is_unanswered (reply_of (getStoreInfo w call))
     then 1 else 0)%nat /\
  error_logs (trace_of (getProductByStripeCode w call)) =
    (if is_error_reply INTERNAL (reply_of (getProductByStripeCode w call))
        || is_unanswered (reply_of (getProductByStripeCode w call))
     then 1 else 0)%nat.
Proof.
  repeat split.
  - verify_cases w call; try reflexivity. by destruct (is_nullish e).
  - info_cases w call; try reflexivity. by destruct (is_nullish e).
  - product_cases w call; try reflexivity; by destruct (is_nullish e).
Qed.

(** X6. A handler answers INVALID_ARGUMENT exactly when one of its
    required identifiers is falsy ([undefined], [null], the empty string, 0,
    [false], NaN); a request whose identifiers are all truthy is never
    answered with INVALID_ARGUMENT, whatever the collaborators do. *)
Theorem invalid_argument_iff_falsy_identifier (w : World) (call : Call) :
  let p := Request.project_id (request call) in
  let s := Request.store_id (request call) in
  let c := Request.stripe_code (request call) in
  is_error_reply INVALID_ARGUMENT (reply_of (verifyStoreAccess w call)) =
    negb (truthy p && truthy s) /\
  is_error_reply INVALID_ARGUMENT (reply_of (getStoreInfo w call)) =
    negb (truthy p && truthy s) /\
  is_error_reply INVALID_ARGUMENT (reply_of (getProductByStripeCode w call)) =
    negb (truthy p && truthy s && truthy c).
Proof.
  cbv zeta. repeat split.
  - verify_cases w call; try reflexivity. by destruct (is_nullish e).
  - info_cases w call; try reflexivity. by destruct (is_nullish e).
  - product_cases w call; try reflexivity; by destruct (is_nullish e).
Qed.

(** X7. A handler ends without calling [callback] exactly when the request
    is valid and a lookup it awaits throws [null] or [undefined]: reading
    [error.message] in the [catch] block then throws itself.  Every other
    run answers. *)
Theorem unanswered_iff_nullish_throw (w : World) (call : Call) :
  let valid := truthy (Request.project_id (request call))
               && truthy (Request.store_id (request call)) in
  let store_fails :=
    match store_lookup w call with
    | Throw e => is_nullish e
    | Return _ => false
    end in
  let catalog_fails :=
    match store_lookup w call, catalog_lookup w call with
    | Return shop, Throw e => truthy shop && is_nullish e
    | _, _ => false
    end in
  is_unanswered (reply_of (verifyStoreAccess w call)) = valid && store_fails /\
  is_unanswered (reply_of (getStoreInfo w call)) = valid && store_fails /\
  is_unanswered (reply_of (getProductByStripeCode w call)) =
    valid && truthy (Request.stripe_code (request call))
    && (store_fails || catalog_fails).
Proof.
  cbv zeta. repeat split.
  - verify_cases w call; try reflexivity. by destruct (is_nullish e).
  - info_cases w call; try reflexivity. by destruct (is_nullish e).
  - product_cases w call; rewrite ?Hshop; try reflexivity;
      try (by destruct (catalog_lookup w call));
      by destruct (is_nullish e).
Qed.

Lemma handlers_read_the_requested_record_witness :
  run (verifyStoreAccess prod_only_world sample_call) =
  run (verifyStoreAccess (world_of (Return open_shop) (Return JNull) 0)
         sample_call).
Proof.
  apply (handlers_read_the_requested_record prod_only_world
           (world_of (Return open_shop) (Return JNull) 0) sample_call).
  reflexivity.
Defined.

(** X8. For a catalog hit, the fixed fields of the response are the
    record's [stripeCode], [title], [category], [picture], [price],
    [purchasePrice] and [shopId] when truthy, else the requested
    [stripe_code], the empty string (three times), 0 (twice) and the
    requested [store_id]; [_id] is the record's [_id], else its [id], else
    the empty string. *)
Theorem product_found_fields
    (w : World) (call : Call) (shop product : JsVal) :
  valid_product_request call ->
  store_lookup w call = Return shop -> truthy shop = true ->
  catalog_lookup w call = Return product -> truthy product = true ->
  let field := get_prop product in
  let pick (v d : JsVal) := if truthy v then v else d in
  exists resp,
    reply_of (getProductByStripeCode w call) = Done (callback_ok resp) /\
    ProductLookupResult.exists_ resp = true /\
    ProductLookupResult.stripe_code resp =
      pick (field "stripeCode") (Request.stripe_code (request call)) /\
    ProductLookupResult.title resp = pick (field "title") (JStr "") /\
    ProductLookupResult.category resp = pick (field "category") (JStr "") /\
    ProductLookupResult.picture resp = pick (field "picture") (JStr "") /\
    ProductLookupResult.price resp = pick (field "price") (JNum 0) /\
    ProductLookupResult.purchase_price resp =
      pick (field "purchasePrice") (JNum 0) /\
    ProductLookupResult.shop_id resp =
      pick (field "shopId") (Request.store_id (request call)) /\
    ProductLookupResult._id resp =
      pick (field "_id") (pick (field "id") (JStr "")).
Proof.
  intros Hvalid Hshop Hs Hprod Hp field pick.
  exists (product_found call product).
  split; [by eapply found_product_reply|].
  repeat split.
Qed.

Lemma product_found_fields_witness :
  exists resp,
    reply_of (getProductByStripeCode
                (world_of (Return open_shop) (Return zero_units_product) 0)
                sample_call) = Done (callback_ok resp) /\
    ProductLookupResult.title resp = JStr "Water" /\
    ProductLookupResult.shop_id resp = JStr "store-7".
Proof.
  destruct (product_found_fields
              (world_of (Return open_shop) (Return zero_units_product) 0)
              sample_call open_shop zero_units_product)
    as (resp & Hreply & _ & _ & Htitle & _ & _ & _ & _ & Hshop & _).
  - repeat split; reflexivity.
  - reflexivity.
  - reflexivity.
  - reflexivity.
  - reflexivity.
  - exists resp. repeat split; assumption.
Defined.

(** X9. A product the catalog does not know, in a store that exists, gets
    the very reply of a request for a store that does not exist: the
    not-found response built from the request alone.  Only the trace
    differs, by one catalog lookup. *)
Theorem missing_product_replies_like_missing_store
    (w1 w2 : World) (call : Call) (shop1 shop2 product : JsVal) :
  valid_product_request call ->
  store_lookup w1 call = Return shop1 -> truthy shop1 = false ->
  store_lookup w2 call = Return shop2 -> truthy shop2 = true ->
  catalog_lookup w2 call = Return product -> truthy product = false ->
  reply_of (getProductByStripeCode w2 call) =
    Done (callback_ok
            (product_not_found (Request.stripe_code (request call))
               (Request.store_id (request call)))) /\
  reply_of (getProductByStripeCode w2 call) =
    reply_of (getProductByStripeCode w1 call) /\
  product_lookups (trace_of (getProductByStripeCode w2 call)) = 1%nat /\
  product_lookups (trace_of (getProductByStripeCode w1 call)) = 0%nat.
Proof.
  intros Hvalid Hshop1 Hfalsy Hshop2 Htruthy Hprod Hmissing.
  destruct (getProductByStripeCode_no_store w1 call shop1
              Hvalid Hshop1 Hfalsy) as [m1 H1].
  destruct (getProductByStripeCode_catalog_returns w2 call shop2 product
              Hvalid Hshop2 Htruthy Hprod) as (m2 & m2' & H2).
  unfold reply_of, trace_of. rewrite H1, H2, Hmissing. repeat split.
Qed.

Lemma missing_product_witness :
  reply_of (getProductByStripeCode
              (world_of (Return open_shop) (Return JNull) 0) sample_call) =
  reply_of (getProductByStripeCode
              (world_of (Return JNull) (Return JNull) 0) sample_call).
Proof.
  apply (missing_product_replies_like_missing_store
           (world_of (Return JNull) (Return JNull) 0)
           (world_of (Return open_shop) (Return JNull) 0)
           sample_call JNull open_shop JNull); try reflexivity.
  repeat split; reflexivity.
Defined.

(** X10. [verifyStoreAccess] does not use [project_id] to decide: the same
    call under any other (truthy) [project_id] gets the same reply, with
    only the echoed [project_id] replaced. *)
Theorem project_id_does_not_restrict_access
    (w : World) (call : Call) (p : JsVal) :
  truthy (Request.project_id (request call)) = true ->
  truthy p = true ->
  reply_of (verifyStoreAccess w (with_project_id p call)) =
    echo_project p (reply_of (verifyStoreAccess w call)).
Proof.
  intros Hp Hp'.
  destruct (truthy (Request.store_id (request call))) eqn:Hs.
  - assert (valid_store_request call) as Hvalid by done.
    assert (valid_store_request (with_project_id p call)) as Hvalid'
      by done.
    destruct (store_lookup w call) as [shop|e] eqn:Hlookup.
    + destruct (verifyStoreAccess_returns w call shop Hvalid Hlookup)
        as [m Hrun].
      destruct (verifyStoreAccess_returns w (with_project_id p call) shop
                  Hvalid' Hlookup) as [m' Hrun'].
      unfold reply_of. rewrite Hrun, Hrun'. cbn.
      destruct (js_not shop); [reflexivity|].
      destruct (strict_eq_str _ _); reflexivity.
    + destruct (verifyStoreAccess_throws w call e Hvalid Hlookup)
        as [m Hrun].
      destruct (verifyStoreAccess_throws w (with_project_id p call) e
                  Hvalid' Hlookup) as [m' Hrun'].
      unfold reply_of. rewrite Hrun, Hrun', !on_error_any.
      by destruct (is_nullish e).
  - assert (forall c : Call,
              truthy (Request.store_id (request c)) = false ->
              js_not (Request.project_id (request c))
              || js_not (Request.store_id (request c)) = true) as Hbad.
    { intros c Hc. unfold js_not. rewrite Hc. apply orb_true_r. }
    unfold reply_of.
    rewrite (verifyStoreAccess_invalid w call (Hbad call Hs)).
    rewrite (verifyStoreAccess_invalid w (with_project_id p call)
               (Hbad (with_project_id p call) Hs)).
    reflexivity.
Qed.

Lemma project_id_witness :
  reply_of (verifyStoreAccess (world_of (Return open_shop) (Return JNull) 0)
              (with_project_id (JStr "someone-else") sample_call)) =
    Done (callback_ok
            (StoreAccessResult.mk true "Access granted" (JStr "store-7")
               (JStr "someone-else"))).
Proof.
  apply (project_id_does_not_restrict_access
           (world_of (Return open_shop) (Return JNull) 0) sample_call
           (JStr "someone-else")); reflexivity.
Defined.

(** X11. For a found record whose [updated_at] is a number of
    milliseconds [z], [getStoreInfo] answers the whole second that contains
    [z] when [z] is a valid, non-zero time value; a zero timestamp counts as
    missing and the wall clock is used; a number beyond the range of time
    values (8.64e15 ms either way) gives NaN. *)
Theorem updated_at_from_milliseconds
    (w : World) (call : Call) (shop : JsVal) (z : Z) :
  valid_store_request call ->
  store_lookup w call = Return shop -> truthy shop = true ->
  get_prop shop "updated_at" = JNum z ->
  exists resp,
    reply_of (getStoreInfo w call) = Done (callback_ok resp) /\
    (z = 0 -> StoreInfoResult.updated_at resp = JNum (Date_now w / 1000)) /\
    (z <> 0 -> Z.abs z <= 8640000000000000 ->
     exists sec, StoreInfoResult.updated_at resp = JNum sec /\
                 1000 * sec <= z < 1000 * sec + 1000) /\
    (8640000000000000 < Z.abs z -> StoreInfoResult.updated_at resp = JNaN).
Proof.
  intros Hvalid Hlookup Htruthy Hstamp.
  destruct (getStoreInfo_returns w call shop Hvalid Hlookup) as [m Hrun].
  exists (store_info_found w call shop).
  unfold reply_of. rewrite Hrun. cbn [fst].
  rewrite (truthy_js_not _ Htruthy).
  split; [reflexivity|].
  cbn [store_info_found StoreInfoResult.updated_at]. rewrite Hstamp.
  cbn [truthy Date_getTime]. repeat split.
  - intros ->. reflexivity.
  - intros Hnz Hrange.
    rewrite (proj2 (Z.eqb_neq z 0) Hnz). cbn [negb].
    rewrite (proj2 (Z.leb_le _ _) Hrange). cbn [floor_seconds].
    exists (z / 1000). split; [reflexivity|].
    pose proof (Z.div_mod z 1000 ltac:(lia)).
    pose proof (Z.mod_pos_bound z 1000 ltac:(lia)). lia.
  - intros Hfar.
    assert (z <> 0) as Hnz by lia.
    rewrite (proj2 (Z.eqb_neq z 0) Hnz). cbn [negb].
    rewrite (proj2 (Z.leb_gt _ _) Hfar). reflexivity.
Qed.

Lemma updated_at_witness :
  exists resp,
    reply_of (getStoreInfo
                (world_of (Return (JObj [("updated_at", JNum 1700000000999)]))
                   (Return JNull) 0) sample_call) = Done (callback_ok resp) /\
    exists sec, StoreInfoResult.updated_at resp = JNum sec /\
                1000 * sec <= 1700000000999 < 1000 * sec + 1000.
Proof.
  destruct (updated_at_from_milliseconds
              (world_of (Return (JObj [("updated_at", JNum 1700000000999)]))
                 (Return JNull) 0) sample_call
              (JObj [("updated_at", JNum 1700000000999)]) 1700000000999)
    as (resp & Hreply & _ & Hsec & _).
  - split; reflexivity.
  - reflexivity.
  - reflexivity.
  - reflexivity.
  - exists resp. split; [exact Hreply|]. apply Hsec; [discriminate|].
    cbn. discriminate.
Defined.

Lemma assoc_is_Some (k : string) (l : list (string * JsVal)) :
  is_Some (assoc k l) <-> In k (List.map fst l).
Proof.
  induction l as [|[k' v'] l IH]; cbn.
  - split; [by intros [? ?] | tauto].
  - destruct (String.eqb_spec k' k) as [-> | Hne].
    + split; [auto | by eexists].
    + rewrite IH. split; [auto | by intros [? | ?]].
Qed.

Lemma last_assoc_is_Some (k : string) (l : list (string * JsVal)) :
  is_Some (last_assoc k l) <-> In k (List.map fst l).
Proof.
  unfold last_assoc. rewrite assoc_is_Some, List.map_rev.
  symmetry. apply List.in_rev.
Qed.

Lemma free_form_is_Some (product : JsVal) (k : string) :
  is_Some (free_form product k) <-> In k (free_form_keys product).
Proof.
  unfold free_form, free_form_keys.
  destruct (_ && _); [|split; [by intros [? ?] | intros []]].
  rewrite <- last_assoc_is_Some. apply fmap_is_Some.
Qed.

(** X12. Every value of the metadata map built for a found product is a
    string, whatever the record holds: the map fits the string-to-string
    map of the response. *)
Theorem product_metadata_values_are_strings
    (product : JsVal) (k : string) (v : JsVal) :
  product_metadata product !! k = Some v -> exists text, v = JStr text.
Proof.
  destruct (decide (k = "__proto__")) as [-> | Hk].
  { by rewrite product_metadata_proto. }
  rewrite product_metadata_lookup by exact Hk.
  assert (forall o, free_form product k = o -> o = Some v ->
                    exists text, v = JStr text) as Hfree.
  { intros o <-. unfold free_form, convert_value.
    destruct (_ && _); [|discriminate].
    destruct (last_assoc k _); [|discriminate].
    intros [= <-]. eauto. }
  unfold fixed_field.
  repeat case_decide;
    repeat match goal with
           | |- context [if ?b then _ else _] => destruct b
           end;
    try (intros [= <-]; eauto); eauto.
Qed.

Lemma product_metadata_values_witness :
  exists text, JStr "3" = JStr text.
Proof.
  apply (product_metadata_values_are_strings example_product "units").
  reflexivity.
Defined.

(** X13. The keys of the metadata map built for a found product are
    exactly the keys of the free-form metadata (when it is an object or an
    array) other than [__proto__], plus [units] when truthy, plus
    [isVending] and [availableItems] when not [undefined].  A free-form
    key [__proto__] never becomes an entry; a record with none of these
    gets the empty map. *)
Theorem product_metadata_keys (product : JsVal) (k : string) :
  is_Some (product_metadata product !! k) <->
  (k <> "__proto__" /\ In k (free_form_keys product)) \/
  (k = "units" /\ truthy (get_prop product "units") = true) \/
  (k = "isVending" /\ get_prop product "isVending" <> JUndefined) \/
  (k = "availableItems" /\ get_prop product "availableItems" <> JUndefined).
Proof.
  destruct (decide (k = "__proto__")) as [-> | Hk].
  { rewrite product_metadata_proto. split.
    - by intros [? ?].
    - intros [[Hx _] | [[Hx _] | [[Hx _] | [Hx _]]]]; done. }
  rewrite product_metadata_lookup by exact Hk.
  rewrite <- free_form_is_Some.
  assert (forall v, is_defined v = true <-> v <> JUndefined) as Hdef
    by (intros v; destruct v; cbn; split; congruence).
  assert (forall v, is_defined v = false -> v = JUndefined) as Hundef
    by (intros v; destruct v; cbn; congruence).
  unfold fixed_field.
  repeat case_decide; subst.
  - destruct (truthy (get_prop product "units")) eqn:Hu.
    + split; [intros _; right; left; done | by eexists].
    + split; [intros Hx; by left|].
      intros [[_ Hx] | [[_ Hx] | [[Hx _] | [Hx _]]]]; done.
  - destruct (is_defined (get_prop product "isVending")) eqn:Hv.
    + split; [|by eexists].
      intros _. right. right. left. split; [done | by apply Hdef].
    + split; [intros Hx; by left|].
      intros [[_ Hx] | [[Hx _] | [[_ Hx] | [Hx _]]]]; try done.
      by rewrite (Hundef _ Hv) in Hx.
  - destruct (is_defined (get_prop product "availableItems")) eqn:Hv.
    + split; [|by eexists].
      intros _. right. right. right. split; [done | by apply Hdef].
    + split; [intros Hx; by left|].
      intros [[_ Hx] | [[Hx _] | [[Hx _] | [_ Hx]]]]; try done.
      by rewrite (Hundef _ Hv) in Hx.
  - split; [intros Hx; by left|].
    intros [[_ Hx] | [[Hx _] | [[Hx _] | [Hx _]]]]; done.
Qed.

(** * The server lifecycle *)

Ltac unfold_lifecycle :=
  unfold outcome_of, this_after, events_of, sys_run, createCredentials,
    loadProto, existsSync, readFileSync, sys_call, sys_emit, sys_throw,
    get_this, set_this in *;
  unfold mbind, L_bind, mret, L_ret in *; cbn [fst snd] in *.

(** X14. [createCredentials] checks the three files in the order server
    certificate, server key, CA certificate and throws for the first one
    that does not exist, naming it and its configured path. *)
Theorem createCredentials_reports_first_missing_file
    (h : Host) (this : GrpcServer) :
  let cfg := config_grpc h in
  let outcome := outcome_of (createCredentials h) this in
  (fs h !! serverCertPath cfg = None ->
   outcome = Raised (JsError ("Server certificate not found: "
                              ++ serverCertPath cfg))) /\
  (is_Some (fs h !! serverCertPath cfg) ->
   fs h !! serverKeyPath cfg = None ->
   outcome = Raised (JsError ("Server key not found: " ++ serverKeyPath cfg))) /\
  (is_Some (fs h !! serverCertPath cfg) ->
   is_Some (fs h !! serverKeyPath cfg) ->
   fs h !! caCertPath cfg = None ->
   outcome = Raised (JsError ("CA certificate not found: " ++ caCertPath cfg))).
Proof.
  cbv zeta. unfold_lifecycle. repeat split.
  - by intros ->.
  - intros [? ->] ->. reflexivity.
  - intros [? ->] [? ->] ->. reflexivity.
Qed.

(** X15. [createCredentials] returns credentials exactly when the three
    configured paths hold readable files, and the credentials are then made
    of their contents: the CA certificate as root, one pair of server
    certificate and server key, and the configured client-certificate flag
    unchanged. *)
Theorem createCredentials_succeeds_iff
    (h : Host) (this : GrpcServer) (creds : ServerCredentials) :
  let cfg := config_grpc h in
  outcome_of (createCredentials h) this = Done creds <->
  exists cert key ca,
    fs h !! serverCertPath cfg = Some (File cert) /\
    fs h !! serverKeyPath cfg = Some (File key) /\
    fs h !! caCertPath cfg = Some (File ca) /\
    creds = createSsl ca [{| cert_chain := cert; private_key := key |}]
              (requireClientCert cfg).
Proof.
  cbv zeta. unfold_lifecycle. split.
  - destruct (fs h !! serverCertPath _) as [[cert|?]|];
      destruct (fs h !! serverKeyPath _) as [[key|?]|];
      destruct (fs h !! caCertPath _) as [[ca|?]|]; cbn; try discriminate.
    intros [= <-]. by exists cert, key, ca.
  - intros (cert & key & ca & -> & -> & -> & ->). reflexivity.
Qed.

(** X16. When one of the three files does not exist, [createCredentials]
    reads no file at all (the existence checks come first); and it never
    changes the fields of the instance. *)
Theorem createCredentials_reads_only_when_all_exist
    (h : Host) (this : GrpcServer) :
  let cfg := config_grpc h in
  (fs h !! serverCertPath cfg = None \/ fs h !! serverKeyPath cfg = None \/
   fs h !! caCertPath cfg = None ->
   file_reads (events_of (createCredentials h) this) = 0%nat) /\
  this_after (createCredentials h) this = this.
Proof.
  cbv zeta. unfold_lifecycle. split.
  - destruct (fs h !! serverCertPath _) as [[cert|?]|];
      destruct (fs h !! serverKeyPath _) as [[key|?]|];
      destruct (fs h !! caCertPath _) as [[ca|?]|]; cbn;
      intros [? | [? | ?]]; try discriminate; reflexivity.
  - destruct (fs h !! serverCertPath _) as [[cert|?]|];
      destruct (fs h !! serverKeyPath _) as [[key|?]|];
      destruct (fs h !! caCertPath _) as [[ca|?]|]; reflexivity.
Qed.

(** [createCredentials] neither reads nor writes the instance, and only
    appends to the trace. *)
Lemma createCredentials_frame
    (h : Host) (this : GrpcServer) (tr : list SysEvent) :
  createCredentials h (this, tr) =
    (outcome_of (createCredentials h) GrpcServer_new,
     (this, (tr ++ events_of (createCredentials h) GrpcServer_new)%list)).
Proof.
  unfold_lifecycle.
  destruct (fs h !! serverCertPath _) as [[cert|?]|];
    destruct (fs h !! serverKeyPath _) as [[key|?]|];
    destruct (fs h !! caCertPath _) as [[ca|?]|]; cbn;
    rewrite <- ?app_assoc; reflexivity.
Qed.

(** X19. Without the proto file [start] throws "Proto file not found"
    with the path, having logged it, and has done nothing else: no server
    created, no certificate looked at, the instance unchanged. *)
Theorem start_without_proto_file (h : Host) (this : GrpcServer) :
  fs h !! protoPath h = None ->
  let error := JsError ("Proto file not found: " ++ protoPath h) in
  sys_run (start h) this =
    (Raised error,
     (this, [fs_existsSync (protoPath h);
             log_error "Error starting gRPC server:" error])).
Proof.
  intros Hmissing. unfold start, sys_try_catch. unfold_lifecycle.
  rewrite Hmissing. reflexivity.
Qed.

Lemma createCredentials_events (h : Host) (this : GrpcServer) :
  binds (events_of (createCredentials h) this) = 0%nat /\
  servers_created (events_of (createCredentials h) this) = 0%nat.
Proof.
  unfold_lifecycle.
  destruct (fs h !! serverCertPath _) as [[cert|?]|];
    destruct (fs h !! serverKeyPath _) as [[key|?]|];
    destruct (fs h !! caCertPath _) as [[ca|?]|]; split; reflexivity.
Qed.

Lemma counts_app (l1 l2 : list SysEvent) :
  binds (l1 ++ l2) = (binds l1 + binds l2)%nat /\
  servers_created (l1 ++ l2) = (servers_created l1 + servers_created l2)%nat.
Proof.
  unfold binds, servers_created. by rewrite !List.filter_app, !length_app.
Qed.

(** Every way [start] can run. *)
Lemma start_run (h : Host) (this : GrpcServer) :
  sys_run (start h) this =
    let failed (e : JsVal) (this' : GrpcServer) (tr : list SysEvent) :=
      (@Raised unit e,
       (this', (tr ++ [log_error "Error starting gRPC server:" e])%list)) in
    match fs h !! protoPath h with
    | None =>
        failed (JsError ("Proto file not found: " ++ protoPath h)) this
          [fs_existsSync (protoPath h)]
    | Some _ =>
        match protoLoader_loadSync h (protoPath h) with
        | Throw e =>
            failed e this [fs_existsSync (protoPath h); loadSync (protoPath h)]
        | Return definition =>
            match grpc_loadPackageDefinition h definition with
            | Throw e =>
                failed e
                  {| server := server this;
                     packageDefinition := definition;
                     protoDescriptor := protoDescriptor this |}
                  [fs_existsSync (protoPath h); loadSync (protoPath h);
                   loadPackageDefinition definition]
            | Return descriptor =>
                let this' := {| server := Some grpc_Server;
                                packageDefinition := definition;
                                protoDescriptor := descriptor |} in
                let pre := [fs_existsSync (protoPath h); loadSync (protoPath h);
                            loadPackageDefinition definition; new_Server] in
                let storeProto := get_prop descriptor "store" in
                if is_nullish descriptor then failed TypeError this' pre
                else if js_not storeProto
                        || js_not (get_prop storeProto "StoreService")
                then failed (JsError "StoreService not found in proto definition")
                       this' pre
                else
                  let service := service_of descriptor in
                  let added :=
                    (pre ++ [addService service registered_rpcs])%list in
                  match server_addService h service registered_rpcs with
                  | Throw e => failed e this' added
                  | Return _ =>
                      let registered :=
                        (added
                         ++ events_of (createCredentials h) GrpcServer_new)%list
                      in
                      match outcome_of (createCredentials h) GrpcServer_new with
                      | Done credentials =>
                          (Done tt,
                           (this',
                            (registered
                             ++ [bindAsync (the_bind_address h)
                                   credentials])%list))
                      | Raised e => failed e this' registered
                      end
                  end
            end
        end
    end.
Proof.
  cbv zeta.
  unfold start, sys_try_catch, sys_run, loadProto, existsSync, sys_call,
    sys_emit, sys_throw, get_this, set_this.
  unfold mbind, L_bind, mret, L_ret. cbn [fst snd].
  destruct (fs h !! protoPath h) as [entry|]; [|reflexivity].
  cbn -[createCredentials sys_get_member get_prop].
  destruct (protoLoader_loadSync h (protoPath h)) as [definition|e];
    [|reflexivity].
  cbn -[createCredentials sys_get_member get_prop].
  destruct (grpc_loadPackageDefinition h definition) as [descriptor|e];
    [|reflexivity].
  cbn -[createCredentials sys_get_member get_prop].
  destruct (is_nullish descriptor) eqn:Hnull.
  { destruct descriptor; try discriminate; reflexivity. }
  replace (sys_get_member descriptor "store")
    with (mret (M := L) (get_prop descriptor "store"))
    by (destruct descriptor; try discriminate; reflexivity).
  unfold mret, L_ret.
  destruct (js_not _ || js_not _); [reflexivity|].
  unfold sys_emit, service_of. cbn -[createCredentials get_prop].
  destruct (server_addService h _ registered_rpcs) as [v|e]; [|reflexivity].
  cbn -[createCredentials get_prop].
  rewrite createCredentials_frame.
  destruct (outcome_of (createCredentials h) GrpcServer_new);
    cbn -[get_prop events_of]; rewrite <- ?app_assoc; reflexivity.
Qed.

Lemma createCredentials_outcome_any (h : Host) (this : GrpcServer) :
  outcome_of (createCredentials h) this =
  outcome_of (createCredentials h) GrpcServer_new.
Proof.
  unfold outcome_of at 1. unfold sys_run.
  by rewrite createCredentials_frame.
Qed.

Ltac start_cases h this :=
  unfold outcome_of, events_of, this_after;
  rewrite (start_run h this); cbv zeta;
  fold (outcome_of (createCredentials h) GrpcServer_new);
  destruct (fs h !! protoPath h) as [?entry|];
  [ destruct (protoLoader_loadSync h (protoPath h)) as [?definition|?e];
    [ match goal with
      | |- context [grpc_loadPackageDefinition h ?d] =>
          destruct (grpc_loadPackageDefinition h d) as [?descriptor|?e];
          [ match goal with
            | |- context [is_nullish ?desc] =>
                destruct (is_nullish desc) eqn:?Hnull;
                [ | destruct (js_not (get_prop desc "store")
                              || js_not (get_prop (get_prop desc "store")
                                           "StoreService")) eqn:?Hservice;
                    [ | destruct (server_addService h (service_of desc)
                                    registered_rpcs) as [?added|?e]
                          eqn:?Hadded;
                        [ destruct (outcome_of (createCredentials h)
                                      GrpcServer_new) as [?credentials|?e]
                            eqn:?Hcreds
                        | ] ] ]
            end
          | ]
      end
    | ]
  | ]; cbn [fst snd].

(** X22. [start] calls [bindAsync] exactly once when it returns and never
    when it throws.  Every error it throws is logged as the last thing it
    does; when it returns, the bind is the last thing it does, on
    0.0.0.0 and the configured port, with the credentials
    [createCredentials] gives. *)
Theorem start_binds_iff_it_returns (h : Host) (this : GrpcServer) :
  binds (events_of (start h) this) =
    (match outcome_of (start h) this with Done _ => 1 | Raised _ => 0 end)%nat /\
  (forall e, outcome_of (start h) this = Raised e ->
     last (events_of (start h) this) =
       Some (log_error "Error starting gRPC server:" e)) /\
  (outcome_of (start h) this = Done tt ->
   exists credentials,
     outcome_of (createCredentials h) this = Done credentials /\
     last (events_of (start h) this) =
       Some (bindAsync (the_bind_address h) credentials) /\
     server (this_after (start h) this) = Some grpc_Server).
Proof.
  rewrite (createCredentials_outcome_any h this).
  pose proof (createCredentials_events h GrpcServer_new) as [Hb _].
  repeat split.
  - start_cases h this; rewrite ?(proj1 (counts_app _ _)), ?Hb; reflexivity.
  - intros e. start_cases h this; intros [= <-]; try reflexivity;
      rewrite ?app_assoc; apply last_snoc.
  - start_cases h this; try discriminate. intros _.
    exists credentials. split; [reflexivity|]. split; [|reflexivity].
    rewrite ?app_assoc. apply last_snoc.
Qed.

(** X21. Once the proto file is loaded with its service, [start] has
    created one server and kept it in [this.server], and then follows the
    registration and the credentials: when [addService] throws, [start]
    logs and rethrows that error without looking at any certificate file
    and without binding; when it completes, [start] returns exactly when
    [createCredentials] does and otherwise rethrows its error. *)
Theorem start_after_proto_follows_credentials
    (h : Host) (this : GrpcServer) (definition descriptor : JsVal) :
  proto_loads h definition descriptor ->
  let this' := {| server := Some grpc_Server;
                  packageDefinition := definition;
                  protoDescriptor := descriptor |} in
  this_after (start h) this = this' /\
  servers_created (events_of (start h) this) = 1%nat /\
  (forall e,
     server_addService h (service_of descriptor) registered_rpcs = Throw e ->
     sys_run (start h) this =
       (Raised e,
        (this',
         [fs_existsSync (protoPath h); loadSync (protoPath h);
          loadPackageDefinition definition; new_Server;
          addService (service_of descriptor) registered_rpcs;
          log_error "Error starting gRPC server:" e]))) /\
  (forall added,
     server_addService h (service_of descriptor) registered_rpcs
       = Return added ->
     outcome_of (start h) this =
       match outcome_of (createCredentials h) this with
       | Done _ => Done tt
       | Raised e => Raised e
       end).
Proof.
  intros ([entry Hfile] & Hload & Hdesc & Hstore & Hservice) this'.
  rewrite (createCredentials_outcome_any h this).
  pose proof (createCredentials_events h GrpcServer_new) as [_ Hn].
  assert (is_nullish descriptor = false) as Hobj by (by destruct descriptor).
  unfold outcome_of at 1, events_of at 1, this_after.
  rewrite (start_run h this). cbv zeta.
  rewrite Hfile, Hload, Hdesc, Hobj.
  rewrite (truthy_js_not _ Hstore), (truthy_js_not _ Hservice).
  cbn [orb].
  destruct (server_addService h (service_of descriptor) registered_rpcs)
    as [added|e0].
  - destruct (outcome_of (createCredentials h) GrpcServer_new); cbn [fst snd];
      rewrite !(proj2 (counts_app _ _)), Hn;
      (split; [reflexivity|]); (split; [reflexivity|]);
      (split; [discriminate | reflexivity]).
  - cbn [fst snd]. split; [reflexivity|]. split; [reflexivity|].
    split; [by intros e [= <-] | discriminate].
Qed.

(** X20. When the loaded descriptor has no [store.StoreService], [start]
    throws "StoreService not found in proto definition" after creating the
    server, which stays in [this.server]; no handler is registered, no
    certificate file is looked at and nothing is bound. *)
Theorem start_without_service
    (h : Host) (this : GrpcServer) (definition descriptor : JsVal) :
  is_Some (fs h !! protoPath h) ->
  protoLoader_loadSync h (protoPath h) = Return definition ->
  grpc_loadPackageDefinition h definition = Return descriptor ->
  is_nullish descriptor = false ->
  truthy (get_prop descriptor "store") = false \/
  truthy (get_prop (get_prop descriptor "store") "StoreService") = false ->
  let error := JsError "StoreService not found in proto definition" in
  sys_run (start h) this =
    (Raised error,
     ({| server := Some grpc_Server;
         packageDefinition := definition;
         protoDescriptor := descriptor |},
      [fs_existsSync (protoPath h); loadSync (protoPath h);
       loadPackageDefinition definition; new_Server;
       log_error "Error starting gRPC server:" error])).
Proof.
  intros [entry Hfile] Hload Hdesc Hobj Hmissing. cbv zeta.
  rewrite (start_run h this). cbv zeta.
  rewrite Hfile, Hload, Hdesc, Hobj.
  assert (js_not (get_prop descriptor "store")
          || js_not (get_prop (get_prop descriptor "store") "StoreService")
          = true) as ->.
  { unfold js_not. destruct Hmissing as [-> | ->];
      [reflexivity | apply orb_true_r]. }
  reflexivity.
Qed.

(** X24. The callback of [bindAsync]: on a bind error it logs and
    rethrows the error without starting the server; otherwise it starts the
    server and then logs the bound port, the two certificate paths and the
    client-certificate flag. *)
Theorem bindAsync_callback_outcomes
    (h : Host) (this : GrpcServer) (error bound : JsVal) :
  (truthy error = true ->
   sys_run (bindAsync_callback h error bound) this =
     (Raised error,
      (this, [log_error "Failed to start gRPC server:" error]))) /\
  (truthy error = false -> server this = Some grpc_Server ->
   sys_run (bindAsync_callback h error bound) this =
     (Done tt,
      (this,
       [server_start;
        log_info ("gRPC server started on port " ++ to_string bound
                  ++ " with mTLS");
        log_info ("Server certificate: " ++ serverCertPath (config_grpc h));
        log_info ("CA certificate: " ++ caCertPath (config_grpc h));
        log_info ("Client certificate required: "
                  ++ (if requireClientCert (config_grpc h)
                      then "true" else "false"))]))).
Proof.
  unfold bindAsync_callback, sys_run, sys_emit, sys_throw, get_this.
  unfold mbind, L_bind, mret, L_ret. split.
  - intros ->. reflexivity.
  - intros -> Hserver. cbn [fst snd]. rewrite Hserver. cbn.
    by destruct (requireClientCert _).
Qed.

(** [stop] on any instance. *)
Lemma stop_run (this : GrpcServer) :
  sys_run stop this =
    (Done tt,
     (this,
      match server this with
      | Some _ => [tryShutdown; log_info "gRPC server stopped"]
      | None => []
      end)).
Proof.
  unfold stop, sys_run, sys_emit, get_this.
  unfold mbind, L_bind, mret, L_ret. cbn [fst snd].
  by destruct (server this).
Qed.

(** X26. [stop] after [start] shuts a server down exactly when the
    instance already had one or [start] got as far as creating one, also
    when [start] then failed and never bound it; after a [start] that
    failed in [loadProto] on a fresh instance, [stop] does nothing. *)
Theorem stop_after_start (h : Host) (this : GrpcServer) :
  events_of stop (this_after (start h) this) =
    if bool_decide (server this = None)
       && Nat.eqb (servers_created (events_of (start h) this)) 0
    then []
    else [tryShutdown; log_info "gRPC server stopped"].
Proof.
  pose proof (createCredentials_events h GrpcServer_new) as [_ Hn].
  unfold events_of at 1. rewrite stop_run.
  cbn [fst snd].
  start_cases h this;
    rewrite ?(proj2 (counts_app _ _)), ?Hn; cbn;
    try (by destruct (server this));
    rewrite ?andb_false_r; reflexivity.
Qed.

(** X17. When the three files exist but one cannot be read,
    [createCredentials] throws the error of the first failing read, in the
    order server certificate, server key, CA certificate, as it is. *)
Theorem createCredentials_rethrows_read_errors
    (h : Host) (this : GrpcServer) (e : JsVal) :
  let cfg := config_grpc h in
  is_Some (fs h !! serverCertPath cfg) ->
  is_Some (fs h !! serverKeyPath cfg) ->
  is_Some (fs h !! caCertPath cfg) ->
  (fs h !! serverCertPath cfg = Some (Unreadable e) ->
   outcome_of (createCredentials h) this = Raised e) /\
  (forall cert, fs h !! serverCertPath cfg = Some (File cert) ->
     fs h !! serverKeyPath cfg = Some (Unreadable e) ->
     outcome_of (createCredentials h) this = Raised e) /\
  (forall cert key, fs h !! serverCertPath cfg = Some (File cert) ->
     fs h !! serverKeyPath cfg = Some (File key) ->
     fs h !! caCertPath cfg = Some (Unreadable e) ->
     outcome_of (createCredentials h) this = Raised e).
Proof.
  cbv zeta. unfold_lifecycle. intros [x Hx] [y Hy] [z Hz]. repeat split.
  - intros Hc. rewrite Hc, Hy, Hz. reflexivity.
  - intros cert Hc Hk. rewrite Hc, Hk, Hz. reflexivity.
  - intros cert key Hc Hk Ha. rewrite Hc, Hk, Ha. reflexivity.
Qed.

(** X18. [loadProto] never touches [this.server]; when it throws, the
    descriptor the instance held is still there; when it returns, the
    instance holds exactly the definition and the descriptor the two
    library calls returned. *)
Theorem loadProto_keeps_server (h : Host) (this : GrpcServer) :
  server (this_after (loadProto h) this) = server this /\
  (forall e, outcome_of (loadProto h) this = Raised e ->
     protoDescriptor (this_after (loadProto h) this) = protoDescriptor this) /\
  (outcome_of (loadProto h) this = Done tt ->
   exists definition descriptor,
     protoLoader_loadSync h (protoPath h) = Return definition /\
     grpc_loadPackageDefinition h definition = Return descriptor /\
     this_after (loadProto h) this =
       {| server := server this;
          packageDefinition := definition;
          protoDescriptor := descriptor |}).
Proof.
  unfold_lifecycle.
  destruct (fs h !! protoPath h) as [entry|]; cbn;
    [|repeat split; discriminate].
  destruct (protoLoader_loadSync h (protoPath h)) as [definition|e0]; cbn;
    [|repeat split; discriminate].
  destruct (grpc_loadPackageDefinition h definition) as [descriptor|e0] eqn:Hd;
    cbn; [|repeat split; discriminate].
  repeat split; [discriminate|]. intros _. by exists definition, descriptor.
Qed.

(** X23. The whole sequence of a successful [start] on a fresh instance,
    when the proto file loads with its service, [addService] accepts the
    service definition and the three certificate files are readable: proto
    file checked and loaded, server created, service added, the three
    certificate files checked and then read, and last the bind with the
    credentials built from them. *)
Theorem start_sequence
    (h : Host) (definition descriptor added : JsVal) (cert key ca : string) :
  let cfg := config_grpc h in
  proto_loads h definition descriptor ->
  server_addService h (service_of descriptor) registered_rpcs = Return added ->
  fs h !! serverCertPath cfg = Some (File cert) ->
  fs h !! serverKeyPath cfg = Some (File key) ->
  fs h !! caCertPath cfg = Some (File ca) ->
  outcome_of (start h) GrpcServer_new = Done tt /\
  events_of (start h) GrpcServer_new =
    [fs_existsSync (protoPath h); loadSync (protoPath h);
     loadPackageDefinition definition; new_Server;
     addService (service_of descriptor) registered_rpcs;
     fs_existsSync (serverCertPath cfg); fs_existsSync (serverKeyPath cfg);
     fs_existsSync (caCertPath cfg);
     fs_readFileSync (serverCertPath cfg); fs_readFileSync (serverKeyPath cfg);
     fs_readFileSync (caCertPath cfg);
     bindAsync (the_bind_address h)
       (createSsl ca [{| cert_chain := cert; private_key := key |}]
          (requireClientCert cfg))].
Proof.
  intros cfg ([entry Hfile] & Hload & Hdesc & Hstore & Hservice) Hadd Hc Hk Ha.
  assert (is_nullish descriptor = false) as Hobj by (by destruct descriptor).
  assert (sys_run (createCredentials h) GrpcServer_new =
          (Done (createSsl ca [{| cert_chain := cert; private_key := key |}]
                   (requireClientCert cfg)),
           (GrpcServer_new,
            [fs_existsSync (serverCertPath cfg);
             fs_existsSync (serverKeyPath cfg);
             fs_existsSync (caCertPath cfg);
             fs_readFileSync (serverCertPath cfg);
             fs_readFileSync (serverKeyPath cfg);
             fs_readFileSync (caCertPath cfg)]))) as Hcreds.
  { subst cfg. unfold_lifecycle. rewrite Hc, Hk, Ha. reflexivity. }
  unfold outcome_of, events_of. rewrite (start_run h GrpcServer_new).
  cbv zeta. rewrite Hfile, Hload, Hdesc, Hobj.
  rewrite (truthy_js_not _ Hstore), (truthy_js_not _ Hservice). cbn [orb].
  rewrite Hadd.
  unfold outcome_of, events_of. rewrite Hcreds. split; reflexivity.
Qed.

Lemma start_sets_server (h : Host) (this : GrpcServer) :
  outcome_of (start h) this = Done tt ->
  server (this_after (start h) this) = Some grpc_Server.
Proof. start_cases h this; try discriminate. reflexivity. Qed.

(** X25. After a [start] that returned, the callback of a bind that
    succeeded always finds the server and starts it first. *)
Theorem callback_after_start
    (h : Host) (this : GrpcServer) (error bound : JsVal) :
  outcome_of (start h) this = Done tt ->
  truthy error = false ->
  outcome_of (bindAsync_callback h error bound) (this_after (start h) this)
    = Done tt /\
  head (events_of (bindAsync_callback h error bound)
          (this_after (start h) this)) = Some server_start.
Proof.
  intros Hstarted Hok. pose proof (start_sets_server h this Hstarted) as Hserver.
  unfold outcome_of at 1, events_of at 1.
  unfold bindAsync_callback, sys_run, sys_emit, sys_throw, get_this.
  unfold mbind, L_bind, mret, L_ret. rewrite Hok. cbn [fst snd].
  rewrite Hserver. split; reflexivity.
Qed.

(** ** Lifecycle samples *)

Lemma createCredentials_missing_key_witness :
  outcome_of (createCredentials
                (host_of (delete "certs/grpc/server.key" sample_files)))
    GrpcServer_new =
    Raised (JsError "Server key not found: certs/grpc/server.key").
Proof.
  apply (createCredentials_reports_first_missing_file
           (host_of (delete "certs/grpc/server.key" sample_files))
           GrpcServer_new).
  - by eexists.
  - reflexivity.
Defined.

Lemma createCredentials_succeeds_witness :
  outcome_of (createCredentials (host_of sample_files)) GrpcServer_new =
    Done sample_credentials.
Proof.
  apply (createCredentials_succeeds_iff (host_of sample_files) GrpcServer_new
           sample_credentials).
  exists "SERVER CERT", "SERVER KEY", "CA CERT". repeat split; reflexivity.
Defined.

Lemma createCredentials_no_read_witness :
  file_reads (events_of (createCredentials
                           (host_of (delete "certs/grpc/ca.crt" sample_files)))
                GrpcServer_new) = 0%nat.
Proof.
  apply (createCredentials_reads_only_when_all_exist
           (host_of (delete "certs/grpc/ca.crt" sample_files)) GrpcServer_new).
  right. right. reflexivity.
Defined.

Lemma createCredentials_read_error_witness :
  outcome_of (createCredentials
                (host_of (<["certs/grpc/server.key" := Unreadable disk_error]>
                            sample_files)))
    GrpcServer_new = Raised disk_error.
Proof.
  destruct (createCredentials_rethrows_read_errors
              (host_of (<["certs/grpc/server.key" := Unreadable disk_error]>
                          sample_files))
              GrpcServer_new disk_error) as (_ & Hkey & _).
  - by eexists.
  - by eexists.
  - by eexists.
  - apply (Hkey "SERVER CERT"); reflexivity.
Defined.

Lemma loadProto_witness :
  this_after (loadProto (host_of sample_files)) GrpcServer_new =
    {| server := None;
       packageDefinition := sample_definition;
       protoDescriptor := sample_descriptor |}.
Proof.
  destruct (loadProto_keeps_server (host_of sample_files) GrpcServer_new)
    as (_ & _ & Hdone).
  destruct Hdone as (definition & descriptor & Hdef & Hdesc & Hthis);
    [reflexivity|].
  injection Hdef as <-. injection Hdesc as <-. exact Hthis.
Defined.

Lemma start_without_proto_file_witness :
  outcome_of (start (host_of ∅)) GrpcServer_new =
    Raised (JsError "Proto file not found: /app/src/proto/store.proto").
Proof.
  unfold outcome_of.
  rewrite (start_without_proto_file (host_of ∅) GrpcServer_new); reflexivity.
Defined.

Lemma start_without_service_witness :
  this_after (start host_without_service) GrpcServer_new =
    {| server := Some grpc_Server;
       packageDefinition := sample_definition;
       protoDescriptor := JObj [] |}.
Proof.
  unfold this_after.
  rewrite (start_without_service host_without_service GrpcServer_new
             sample_definition (JObj [])); try reflexivity.
  - by eexists.
  - left. reflexivity.
Defined.

Lemma start_after_proto_witness :
  outcome_of (start (host_of (delete "certs/grpc/ca.crt" sample_files)))
    GrpcServer_new =
    Raised (JsError "CA certificate not found: certs/grpc/ca.crt") /\
  outcome_of (start host_with_bare_service) GrpcServer_new =
    Raised (JsError "addService() requires two objects as arguments").
Proof.
  split.
  - destruct (start_after_proto_follows_credentials
                (host_of (delete "certs/grpc/ca.crt" sample_files))
                GrpcServer_new sample_definition sample_descriptor)
      as (_ & _ & _ & Houtcome).
    + split; [by eexists|]. repeat split; reflexivity.
    + apply (Houtcome JUndefined). reflexivity.
  - destruct (start_after_proto_follows_credentials
                host_with_bare_service GrpcServer_new sample_definition
                (JObj [("store", JObj [("StoreService", JObj [])])]))
      as (_ & _ & Hthrow & _).
    + split; [by eexists|]. repeat split; reflexivity.
    + unfold outcome_of.
      rewrite (Hthrow (JsError "addService() requires two objects as arguments"));
        reflexivity.
Defined.

Lemma start_binds_witness :
  last (events_of (start (host_of ∅)) GrpcServer_new) =
    Some (log_error "Error starting gRPC server:"
            (JsError "Proto file not found: /app/src/proto/store.proto")).
Proof.
  apply (start_binds_iff_it_returns (host_of ∅) GrpcServer_new).
  reflexivity.
Defined.

Lemma start_sequence_witness :
  last (events_of (start (host_of sample_files)) GrpcServer_new) =
    Some (bindAsync "0.0.0.0:50051" sample_credentials).
Proof.
  destruct (start_sequence (host_of sample_files)
              sample_definition sample_descriptor JUndefined
              "SERVER CERT" "SERVER KEY" "CA CERT") as [_ Hevents].
  - split; [by eexists|]. repeat split; reflexivity.
  - reflexivity.
  - reflexivity.
  - reflexivity.
  - reflexivity.
  - rewrite Hevents. reflexivity.
Defined.

Lemma bindAsync_callback_witness :
  outcome_of (bindAsync_callback (host_of sample_files)
                (JsError "address in use") (JNum 0)) GrpcServer_new =
    Raised (JsError "address in use").
Proof.
  unfold outcome_of.
  rewrite (proj1 (bindAsync_callback_outcomes (host_of sample_files)
                    GrpcServer_new (JsError "address in use") (JNum 0)));
    reflexivity.
Defined.

Lemma callback_after_start_witness :
  outcome_of (bindAsync_callback (host_of sample_files) JNull (JNum 50051))
    (this_after (start (host_of sample_files)) GrpcServer_new) = Done tt.
Proof.
  apply (callback_after_start (host_of sample_files) GrpcServer_new
           JNull (JNum 50051)); reflexivity.
Defined.
